(** * ONNX conversion and verification scripts

    A shallow embedding of [convert_to_onnx.py] and [verify_onnx.py].

    Both scripts are sequential orchestration over capabilities that live
    outside the repository: the file system ([pathlib], [os.path]), the model
    loader and exporter ([ultralytics.YOLO], [model.export]) and the model
    parser ([onnx.load]).  Those capabilities are taken as parameters; the
    control flow, the bookkeeping lists, the printed report and the exit
    status are modelled from the scripts. *)

From Stdlib Require Import ZArith QArith Qabs.
From stdpp Require Import base list strings gmap sorting.

(** ** Python-level helpers shared by the two scripts *)

Module Py.

(** Outcome of a call that either returns a value or raises an
    [Exception] whose [str(e)] is [msg]. *)
Inductive result (A : Type) : Type :=
| Ok (a : A)
| Raise (msg : string).
Global Arguments Ok {A} a.
Global Arguments Raise {A} msg.

(** [s.endswith(suffix)]. *)
Definition endswith (s suffix : string) : bool :=
  String.prefix (String.rev suffix) (String.rev s).

(** [Path(dir).glob] with a star-then-[ext] pattern, over the names that
    scanning [dir] yields: the pattern keeps every name ending in [ext], in the order
    in which the scan produced them (no sorting takes place). *)
Definition glob_ext (ext : string) (entries : list string) : list string :=
  filter (fun name => Is_true (endswith name ext)) entries.

(** [sorted(paths)] for paths of one directory: ascending by name. *)
Definition sorted (names : list string) : list string :=
  merge_sort String.le names.

(** The fixed relative directory both scripts work on, and [str(dir / name)]
    (POSIX separator). *)
Definition checkpoints_dir : string := "checkpoints".
Definition path_str (name : string) : string :=
  checkpoints_dir +:+ "/" +:+ name.

(** Conversion of a non-negative integer to a binary64 float: the nearest
    integer with at most 53 significant bits, ties going to the even
    significand.  Below 2^53 nothing is lost. *)
Definition round53 (n : Z) : Z :=
  let e := (Z.log2 n - 52)%Z in
  if (e <=? 0)%Z then n
  else
    let q := (n / 2 ^ e)%Z in
    let r := (n mod 2 ^ e)%Z in
    (match (2 * r ?= 2 ^ e)%Z with
     | Lt => q
     | Gt => q + 1
     | Eq => if Z.even q then q else q + 1
     end * 2 ^ e)%Z.

(** [x / (1024 * 1024)] on a byte count, as a float.  True division of
    integers is correctly rounded and the divisor is a power of two, so the
    quotient is the byte count rounded to 53 significant bits, scaled by
    2^-20; the value of that float is kept as a rational.  (Byte counts are
    [st_size] values, far inside the range of a float.) *)
Definition mebibytes (bytes : N) : Q := round53 (Z.of_N bytes) # 1048576.

(** [f"{x:.1f}"]: the decimal with one fractional digit nearest to [x],
    ties going to the even last digit.  The result is the number of
    tenths that is shown ([157] stands for the text [15.7]). *)
Definition format_1f (x : Q) : Z :=
  let n := (10 * Qnum x)%Z in
  let d := Z.pos (Qden x) in
  let q := (n / d)%Z in
  let r := (n mod d)%Z in
  match (2 * r ?= d)%Z with
  | Lt => q
  | Gt => (q + 1)%Z
  | Eq => if Z.even q then q else (q + 1)%Z
  end.

End Py.

(** ** convert_to_onnx.py *)

Module Converter.
Import Py.

(** Keyword arguments of [model.export]. *)
Record ExportArgs : Type := {
  format : string;
  imgsz : Z;
  optimize : bool;
  half : bool;
  dynamic : bool;
  simplify : bool;
  opset : Z
}.

(** Calls made to the external model library, with what they gave back. *)
Inductive call (Model : Type) : Type :=
| CallYOLO (path : string) (r : result Model)
| CallExport (model : Model) (args : ExportArgs) (r : result string).
Global Arguments CallYOLO {Model} path r.
Global Arguments CallExport {Model} model args r.

(** One constructor per [print] statement of the script, carrying the
    interpolated values. *)
Inductive line : Type :=
| DirNotFound (dir : string)
    (* "❌ Checkpoints directory not found: {checkpoints_dir}" *)
| NoCheckpoints (dir : string)
    (* "❌ No .pt checkpoint files found in {checkpoints_dir}" *)
| Found (n : nat)
    (* "🔍 Found {len(checkpoint_files)} checkpoint files:" *)
| FoundFile (name : string)
    (* "   - {file.name}" *)
| Starting
    (* "🚀 Starting ONNX conversion for Raspberry Pi deployment..." *)
| Converting (name : string)
    (* "📦 Converting {checkpoint_file.name} to ONNX..." *)
| Converted (name : string)
    (* "✅ Successfully converted {checkpoint_file.name}" *)
| OnnxFile (onnx_path : string)
    (* "   ONNX file: {onnx_path}" *)
| ConvertFailed (name : string) (error : string)
    (* "❌ Failed to convert {checkpoint_file.name}: {str(e)}" *)
| SummaryHeader
    (* "📊 Conversion Summary:" *)
| SuccessfulCount (n : nat)
    (* "✅ Successful: {len(successful_conversions)}" *)
| FailedCount (n : nat)
    (* "❌ Failed: {len(failed_conversions)}" *)
| SuccessHeader
    (* "✅ Successfully converted models:" *)
| SuccessRow (original : string) (onnx_name : string) (size : option Z)
    (* "   - {original} → {Path(onnx_path).name} ({size_mb:.1f} MB)",
       or without the parenthesis when the file is not on disk *)
| FailedHeader
    (* "❌ Failed conversions:" *)
| FailedRow (original : string) (error : string)
    (* "   - {original}: {error}" *).

(** Lines printed inside the conversion loop. *)
Definition loop_line (l : line) : Prop :=
  match l with
  | Converting _ | Converted _ | OnnxFile _ | ConvertFailed _ _ => True
  | _ => False
  end.

(** The settings passed to every [model.export] call. *)
Definition export_settings : ExportArgs :=
  {| format := "onnx";
     imgsz := 640;
     optimize := true;
     half := false;
     dynamic := false;
     simplify := true;
     opset := 11 |}.

Section Script.
(** The world outside the script. *)
Context {World Model : Type}.
(** Names found by scanning [checkpoints], in the order the scan yields
    them; [None] when the path does not exist. *)
Variable scandir : World -> option (list string).
(** Byte size of the file at a path; [None] when nothing is there
    ([os.path.exists] / [os.path.getsize]). *)
Variable stat_size : World -> string -> option N.
(** [YOLO(path)]. *)
Variable YOLO : string -> World -> result Model * World.
(** [model.export] with keyword arguments [args]. *)
Variable export : Model -> ExportArgs -> World -> result string * World.
(** [Path(p).name]. *)
Variable Path_name : string -> string.

(** What a run threads along: the world, what was printed so far and
    which library calls were made so far (both oldest first). *)
Record State : Type := {
  world : World;
  stdout : list line;
  calls : list (call Model)
}.

Definition M (A : Type) : Type := State -> A * State.

Definition ret {A} (a : A) : M A := fun st => (a, st).
Definition bind {A B} (c : M A) (k : A -> M B) : M B :=
  fun st => let '(a, st') := c st in k a st'.

Notation "'let*' x ':=' c 'in' k" := (bind c (fun x => k))
  (at level 10, x name, c at level 100, k at level 200).
Notation "c ;; k" := (bind c (fun _ => k))
  (at level 100, k at level 200, right associativity).

Definition print (l : line) : M unit :=
  fun st => (tt, {| world := world st;
                    stdout := stdout st ++ [l];
                    calls := calls st |}).

Definition get_world : M World := fun st => (world st, st).

Definition call_YOLO (path : string) : M (result Model) :=
  fun st =>
    let '(r, w) := YOLO path (world st) in
    (r, {| world := w;
           stdout := stdout st;
           calls := calls st ++ [CallYOLO path r] |}).

Definition call_export (m : Model) (args : ExportArgs) : M (result string) :=
  fun st =>
    let '(r, w) := export m args (world st) in
    (r, {| world := w;
           stdout := stdout st;
           calls := calls st ++ [CallExport m args r] |}).

(** [for x in xs: body(x)]. *)
Fixpoint for_each {A} (xs : list A) (body : A -> M unit) : M unit :=
  match xs with
  | [] => ret tt
  | x :: xs' => body x ;; for_each xs' body
  end.

(** Body of the [try] block for one checkpoint, up to the point where
    the result is appended: the exported path, or the exception that
    left the block. *)
Definition try_convert (name : string) : M (result string) :=
  print (Converting name) ;;
  let* loaded := call_YOLO (path_str name) in
  match loaded with
  | Raise e => ret (Raise e)
  | Ok model =>
      let* exported := call_export model export_settings in
      match exported with
      | Raise e => ret (Raise e)
      | Ok onnx_path =>
          print (Converted name) ;;
          print (OnnxFile onnx_path) ;;
          ret (Ok onnx_path)
      end
  end.

(** The conversion loop with its two result lists. *)
Fixpoint convert_loop (files : list string)
    (successful failed : list (string * string))
    : M (list (string * string) * list (string * string)) :=
  match files with
  | [] => ret (successful, failed)
  | checkpoint_file :: rest =>
      let* r := try_convert checkpoint_file in
      match r with
      | Ok onnx_path =>
          convert_loop rest (successful ++ [(checkpoint_file, onnx_path)]) failed
      | Raise e =>
          print (ConvertFailed checkpoint_file e) ;;
          convert_loop rest successful (failed ++ [(checkpoint_file, e)])
      end
  end.

(** One row of the list of converted models: [os.path.exists(onnx_path)]
    decides between the two forms, and [os.path.getsize] gives the size of
    a file that is there. *)
Definition print_success_row (row : string * string) : M unit :=
  let '(original, onnx_path) := row in
  let* w := get_world in
  match stat_size w onnx_path with
  | Some bytes =>
      print (SuccessRow original (Path_name onnx_path)
                        (Some (format_1f (mebibytes bytes))))
  | None =>
      print (SuccessRow original (Path_name onnx_path) None)
  end.

Definition print_failed_row (row : string * string) : M unit :=
  let '(original, error) := row in print (FailedRow original error).

Definition convert_checkpoints_to_onnx : M bool :=
  let* w := get_world in
  match scandir w with
  | None =>
      print (DirNotFound checkpoints_dir) ;;
      ret false
  | Some entries =>
      let checkpoint_files := glob_ext ".pt" entries in
      match checkpoint_files with
      | [] =>
          print (NoCheckpoints checkpoints_dir) ;;
          ret false
      | _ :: _ =>
          print (Found (length checkpoint_files)) ;;
          for_each checkpoint_files (fun file => print (FoundFile file)) ;;
          print Starting ;;
          let* lists := convert_loop checkpoint_files [] [] in
          let successful_conversions := fst lists in
          let failed_conversions := snd lists in
          print SummaryHeader ;;
          print (SuccessfulCount (length successful_conversions)) ;;
          print (FailedCount (length failed_conversions)) ;;
          (match successful_conversions with
           | [] => ret tt
           | _ :: _ =>
               print SuccessHeader ;;
               for_each successful_conversions print_success_row
           end) ;;
          (match failed_conversions with
           | [] => ret tt
           | _ :: _ =>
               print FailedHeader ;;
               for_each failed_conversions print_failed_row
           end) ;;
          ret (Nat.eqb (length failed_conversions) 0)
      end
  end.

Definition initial (w : World) : State :=
  {| world := w; stdout := []; calls := [] |}.

(** [success = convert_checkpoints_to_onnx(); sys.exit(0 if success else 1)]:
    the exit status together with the final state of the run. *)
Definition main (w : World) : Z * State :=
  let '(success, st) := convert_checkpoints_to_onnx (initial w) in
  (if success then 0%Z else 1%Z, st).

(** How a stretch of a run extends the state it started from: the lines
    and calls it adds, and the world it leaves. *)
Record extends (st st' : State) (ls : list line) (cs : list (call Model))
    (w' : World) : Prop := {
  ext_stdout : stdout st' = stdout st ++ ls;
  ext_calls : calls st' = calls st ++ cs;
  ext_world : world st' = w'
}.

(** The line a successful conversion gets in the summary. *)
Definition success_line (w : World) (row : string * string) : line :=
  SuccessRow row.1 (Path_name row.2)
    (match stat_size w row.2 with
     | Some bytes => Some (format_1f (mebibytes bytes))
     | None => None
     end).

Definition failed_line (row : string * string) : line := FailedRow row.1 row.2.

(** What the summary prints for the two lists, on the world the loop left. *)
Definition summary (w : World) (successful failed : list (string * string))
    : list line :=
  [SummaryHeader; SuccessfulCount (length successful); FailedCount (length failed)]
  ++ match successful with
     | [] => []
     | _ :: _ => SuccessHeader :: map (success_line w) successful
     end
  ++ match failed with
     | [] => []
     | _ :: _ => FailedHeader :: map failed_line failed
     end.

(** The files the run discovers: what the glob yields, nothing when the
    directory is missing. *)
Definition checkpoint_files (w : World) : list string :=
  glob_ext ".pt" (default [] (scandir w)).

(** Reference description of the batch, after the specification: each
    discovered file is attempted in turn (load, then export with the
    fixed settings) on the world its predecessors left behind, whatever
    their outcomes were. *)
Definition spec_attempt (name : string) (w : World) : result string * World :=
  match YOLO (path_str name) w with
  | (Raise e, w1) => (Raise e, w1)
  | (Ok model, w1) => export model export_settings w1
  end.

Fixpoint spec_outcomes (files : list string) (w : World)
    : list (string * result string) :=
  match files with
  | [] => []
  | file :: rest =>
      let '(r, w1) := spec_attempt file w in
      (file, r) :: spec_outcomes rest w1
  end.

(** The calls of the batch, written out: one load per file, and after each
    load that returns a model one export of that model with the ONNX
    format, image size 640, optimisation, no half precision, no dynamic
    shapes, simplification and opset 11. *)
Fixpoint spec_calls (files : list string) (w : World) : list (call Model) :=
  match files with
  | [] => []
  | file :: rest =>
      match YOLO (path_str file) w with
      | (Raise e, w1) => CallYOLO (path_str file) (Raise e) :: spec_calls rest w1
      | (Ok model, w1) =>
          let args := {| format := "onnx"; imgsz := 640; optimize := true;
                         half := false; dynamic := false; simplify := true;
                         opset := 11 |} in
          let '(r, w2) := export model args w1 in
          CallYOLO (path_str file) (Ok model) :: CallExport model args r
          :: spec_calls rest w2
      end
  end.

(** The world the batch leaves behind. *)
Fixpoint spec_world (files : list string) (w : World) : World :=
  match files with
  | [] => w
  | file :: rest => spec_world rest (spec_attempt file w).2
  end.

(** Readings of a finished run. *)
Definition exit_status (w : World) : Z := fst (main w).
Definition printed (w : World) : list line := stdout (snd (main w)).
Definition trace (w : World) : list (call Model) := calls (snd (main w)).
Definition final_world (w : World) : World := world (snd (main w)).

End Script.

(** Paths handed to [YOLO], in call order. *)
Definition attempted {Model} (cs : list (call Model)) : list string :=
  omap (fun c => match c with CallYOLO p _ => Some p | _ => None end) cs.

(** Paths returned by the [model.export] calls that did not raise. *)
Definition exported {Model} (cs : list (call Model)) : list string :=
  omap (fun c => match c with CallExport _ _ (Ok p) => Some p | _ => None end) cs.

(** The two kinds of outcome of a batch. *)
Definition successes (os : list (string * result string)) : list (string * string) :=
  omap (fun o => match o.2 with Ok p => Some (o.1, p) | Raise _ => None end) os.
Definition failures (os : list (string * result string)) : list (string * string) :=
  omap (fun o => match o.2 with Raise e => Some (o.1, e) | Ok _ => None end) os.

(** Failures reported by the [except] handler as they happen. *)
Definition caught (out : list line) : list (string * string) :=
  omap (fun l => match l with ConvertFailed n e => Some (n, e) | _ => None end) out.

(** The counts shown in the summary. *)
Definition successful_counts (out : list line) : list nat :=
  omap (fun l => match l with SuccessfulCount n => Some n | _ => None end) out.
Definition failed_counts (out : list line) : list nat :=
  omap (fun l => match l with FailedCount n => Some n | _ => None end) out.

(** Originals named by the rows of the two summary lists. *)
Definition success_rows (out : list line) : list string :=
  omap (fun l => match l with SuccessRow o _ _ => Some o | _ => None end) out.
Definition failed_rows (out : list line) : list (string * string) :=
  omap (fun l => match l with FailedRow o e => Some (o, e) | _ => None end) out.

(** The discovery listing: the announced number and the names below it. *)
Definition found_counts (out : list line) : list nat :=
  omap (fun l => match l with Found n => Some n | _ => None end) out.
Definition found_files (out : list line) : list string :=
  omap (fun l => match l with FoundFile n => Some n | _ => None end) out.

(** The progress lines of the loop. *)
Definition converting (out : list line) : list string :=
  omap (fun l => match l with Converting n => Some n | _ => None end) out.
Definition converted (out : list line) : list string :=
  omap (fun l => match l with Converted n => Some n | _ => None end) out.
Definition onnx_files (out : list line) : list string :=
  omap (fun l => match l with OnnxFile p => Some p | _ => None end) out.

(** The rows of converted models, in full. *)
Definition success_details (out : list line) : list (string * string * option Z) :=
  omap (fun l => match l with SuccessRow o n s => Some (o, n, s) | _ => None end) out.

(** A trace in which every export call comes right after the load that
    returned the model it exports, and every load that returned is followed
    by such a call. *)
Inductive paired {Model} : list (call Model) -> Prop :=
| paired_nil : paired []
| paired_load_failed path e rest :
    paired rest -> paired (CallYOLO path (Raise e) :: rest)
| paired_exported path model args r rest :
    paired rest ->
    paired (CallYOLO path (Ok model) :: CallExport model args r :: rest).

End Converter.

(** ** verify_onnx.py *)

Module Verifier.
Import Py.

(** The parts of a parsed ONNX file the script reads. *)
Record Dimension : Type := { dim_value : Z; dim_param : string }.
Record ValueInfo : Type := {
  vi_name : string;              (* tensor.name *)
  elem_type : Z;                 (* tensor.type.tensor_type.elem_type *)
  dim : list Dimension           (* tensor.type.tensor_type.shape.dim *)
}.
Record OperatorSetId : Type := { domain : string; version : Z }.
Record ModelProto : Type := {
  graph_input : list ValueInfo;
  graph_output : list ValueInfo;
  opset_import : list OperatorSetId
}.

(** The per-tensor dictionaries built by the analysis, with their three
    fixed keys ['name'], ['shape'] and ['dtype']. *)
Record TensorInfo : Type := {
  name : string;
  shape : list Z;
  dtype : Z
}.

(** Values stored in the analysis dictionary. *)
Inductive value : Type :=
| VTensors (ts : list TensorInfo)
| VInt (z : Z)
| VStr (s : string).

(** One constructor per [print] statement of the script. *)
Inductive line : Type :=
| Text (s : string)
    (* a constant string *)
| FoundModels (n : nat)
    (* "Found {len(onnx_files)} ONNX models:" and an empty line *)
| FileName (file : string)
    (* "📁 {onnx_file.name}" *)
| FileSize (tenths : Z)
    (* "   Size: {get_file_size_mb(onnx_file):.1f} MB" *)
| AnalysisError (error : value)
    (* "   ❌ Error analyzing model: {analysis['error']}" *)
| Opset (v : value)
    (* "   ONNX Opset: {analysis['opset_version']}" *)
| InputLine (tensor : string) (dims : list Z)
    (* "   Input: {input_info['name']} {input_info['shape']}" *)
| OutputLine (ordinal : nat) (tensor : string) (dims : list Z)
    (* "   Output {i+1}: {output_info['name']} {output_info['shape']}" *)
| Blank
    (* print() *)
| TableRow (model_name : string) (size_tenths : Z) (params : string)
           (description : string)
    (* "{model_name:<15} {size:<12.1f} {'~2-9M':<12} {description:<30}" *).

(** The hardcoded reference table. *)
Definition model_info : list (string * string) :=
  [ ("yolo11n.onnx", "Fastest inference, lowest memory");
    ("yolo11s.onnx", "Balance of speed and accuracy");
    ("yolov10n.onnx", "Latest architecture, efficient");
    ("yolov10s.onnx", "Good accuracy, moderate speed");
    ("yolov8n.onnx", "Proven performance, good speed");
    ("yolov9s.onnx", "High accuracy, slower inference") ].

(** Contents of the [checkpoints] directory: the entries in the order a
    scan yields them, each with the byte size a [stat] of it gives, or
    nothing when it cannot be stat'ed (a link whose target is gone);
    [None] when the directory does not exist. *)
Definition Directory : Type := option (list (string * option N)).

Definition entries (d : Directory) : list (string * option N) := default [] d.

(** [os.stat(checkpoints_dir / name)], reduced to the size: nothing for a
    name that is not in the directory and for one that is listed but leads
    nowhere. *)
Definition stat (d : Directory) (file : string) : option N :=
  match list_find (fun e => e.1 = file) (entries d) with
  | Some (_, (_, size)) => size
  | None => None
  end.

(** [(checkpoints_dir / name).exists()]. *)
Definition path_exists (d : Directory) (file : string) : bool :=
  bool_decide (is_Some (stat d file)).

(** [os.path.getsize(checkpoints_dir / name)]. *)
Definition getsize (d : Directory) (file : string) : result N :=
  match stat d file with
  | Some bytes => Ok bytes
  | None => Raise ("[Errno 2] No such file or directory: '" +:+ path_str file +:+ "'")
  end.

(** [get_file_size_mb]. *)
Definition get_file_size_mb (d : Directory) (file : string) : result Q :=
  match getsize d file with
  | Ok bytes => Ok (mebibytes bytes)
  | Raise e => Raise e
  end.

Definition tensor_info (t : ValueInfo) : TensorInfo :=
  {| name := vi_name t;
     shape := map dim_value (dim t);
     dtype := elem_type t |}.

(** Truth value of a Python object in a condition. *)
Definition truthy (v : value) : bool :=
  match v with
  | VTensors ts => negb (bool_decide (ts = []))
  | VInt z => negb (z =? 0)%Z
  | VStr s => negb (bool_decide (s = ""))
  end.

Section Script.
(** [onnx.load(path)]. *)
Variable onnx_load : string -> result ModelProto.

(** The body of the [try] block of [analyze_onnx_model]. *)
Definition analyze_body (file : string) : result (gmap string value) :=
  match onnx_load (path_str file) with
  | Raise e => Raise e
  | Ok model =>
      let inputs := map tensor_info (graph_input model) in
      let outputs := map tensor_info (graph_output model) in
      Ok (<["inputs" := VTensors inputs]>
          (<["outputs" := VTensors outputs]>
           (<["opset_version" :=
                match opset_import model with
                | first :: _ => VInt (version first)
                | [] => VStr "Unknown"
                end]> ∅)))
  end.

(** [analyze_onnx_model]: the [try] block with its [except Exception]
    handler. *)
Definition analyze_onnx_model (file : string) : gmap string value :=
  match analyze_body file with
  | Ok analysis => analysis
  | Raise e => {[ "error" := VStr e ]}
  end.

(** The report is printed while the run may still raise: a computation
    takes the lines printed so far and gives its outcome with the lines
    printed up to that point. *)
Definition V (A : Type) : Type := list line -> result A * list line.

Definition ret {A} (a : A) : V A := fun out => (Ok a, out).
Definition raise {A} (msg : string) : V A := fun out => (Raise msg, out).
Definition bind {A B} (c : V A) (k : A -> V B) : V B :=
  fun out =>
    match c out with
    | (Ok a, out') => k a out'
    | (Raise e, out') => (Raise e, out')
    end.
Definition lift {A} (r : result A) : V A := fun out => (r, out).

Notation "'let*' x ':=' c 'in' k" := (bind c (fun x => k))
  (at level 10, x name, c at level 100, k at level 200).
Notation "c ;; k" := (bind c (fun _ => k))
  (at level 100, k at level 200, right associativity).

Definition print (l : line) : V unit := fun out => (Ok tt, out ++ [l]).

(** [d[key]]. *)
Definition getitem (d : gmap string value) (key : string) : V value :=
  match d !! key with
  | Some v => ret v
  | None => raise ("'" +:+ key +:+ "'")
  end.

(** Use of a dictionary entry as a list of tensor dictionaries. *)
Definition tensors_of (v : value) : V (list TensorInfo) :=
  match v with
  | VTensors ts => ret ts
  | _ => raise "TypeError"
  end.

Fixpoint for_each {A} (xs : list A) (body : A -> V unit) : V unit :=
  match xs with
  | [] => ret tt
  | x :: xs' => body x ;; for_each xs' body
  end.

(** [enumerate(xs)] counted from [start]. *)
Fixpoint enumerate_from {A} (start : nat) (xs : list A) : list (nat * A) :=
  match xs with
  | [] => []
  | x :: xs' => (start, x) :: enumerate_from (S start) xs'
  end.
Definition enumerate {A} (xs : list A) : list (nat * A) :=
  enumerate_from 0 xs.

(** The [else] branch of the per-file report. *)
Definition report_interface (analysis : gmap string value) : V unit :=
  let* opset_version := getitem analysis "opset_version" in
  print (Opset opset_version) ;;
  let* inputs := getitem analysis "inputs" in
  (if truthy inputs then
     let* ts := tensors_of inputs in
     match ts with
     | input_info :: _ => print (InputLine (name input_info) (shape input_info))
     | [] => raise "list index out of range"
     end
   else ret tt) ;;
  let* outputs := getitem analysis "outputs" in
  (if truthy outputs then
     let* ts := tensors_of outputs in
     for_each (enumerate ts)
       (fun io => print (OutputLine (io.1 + 1) (name io.2) (shape io.2)))
   else ret tt).

(** One iteration of the per-file loop. *)
Definition report_file (d : Directory) (onnx_file : string) : V unit :=
  print (FileName onnx_file) ;;
  let* size := lift (get_file_size_mb d onnx_file) in
  print (FileSize (format_1f size)) ;;
  let analysis := analyze_onnx_model onnx_file in
  (if bool_decide (is_Some (analysis !! "error")) then
     let* error := getitem analysis "error" in
     print (AnalysisError error)
   else report_interface analysis) ;;
  print Blank.

(** One iteration of the comparison-table loop. *)
Definition table_row (d : Directory) (entry : string * string) : V unit :=
  let model_name := entry.1 in
  let description := entry.2 in
  if path_exists d model_name then
    let* size := lift (get_file_size_mb d model_name) in
    print (TableRow model_name (format_1f size) "~2-9M" description)
  else ret tt.

(** [c * width] and [f"{s:<width}"]. *)
Definition rule (width : nat) (c : string) : string :=
  foldr String.app "" (replicate width c).
Definition ljust (width : nat) (s : string) : string :=
  s +:+ rule (width - String.length s) " ".

Definition table_header : string :=
  ljust 15 "Model" +:+ " " +:+ ljust 12 "Size (MB)" +:+ " " +:+
  ljust 12 "Parameters" +:+ " " +:+ ljust 30 "Best For".

Definition verify_onnx_exports (d : Directory) : V bool :=
  print (Text "🔍 ONNX Model Verification and Analysis") ;;
  print (Text (rule 60 "=")) ;;
  let onnx_files := glob_ext ".onnx" (entries d).*1 in
  match onnx_files with
  | [] =>
      print (Text "❌ No ONNX files found!") ;;
      ret false
  | _ :: _ =>
      print (FoundModels (length onnx_files)) ;;
      for_each (sorted onnx_files) (report_file d) ;;
      print (Text "📊 Model Comparison for Raspberry Pi:") ;;
      print (Text (rule 80 "-")) ;;
      print (Text table_header) ;;
      print (Text (rule 80 "-")) ;;
      for_each model_info (table_row d) ;;
      print (Text (rule 80 "-")) ;;
      print (Text "
🚀 Recommendations for Raspberry Pi:") ;;
      print (Text "1. yolo11n.onnx - Best choice for real-time applications") ;;
      print (Text "2. yolov10n.onnx - Latest architecture with good efficiency") ;;
      print (Text "3. yolov8n.onnx - Reliable option with proven performance") ;;
      print (Text "
💡 Usage with ONNX Runtime:") ;;
      print (Text "   pip install onnxruntime") ;;
      print (Text "   # For inference:") ;;
      print (Text "   yolo predict model=checkpoints/yolo11n.onnx source=image.jpg") ;;
      ret true
  end.

(** [if __name__ == "__main__": verify_onnx_exports()]: the value is
    dropped; the interpreter exits with 0 after a normal return and
    with 1 after an uncaught exception. *)
Definition main (d : Directory) : Z * list line :=
  match verify_onnx_exports d [] with
  | (Ok _, out) => (0%Z, out)
  | (Raise _, out) => (1%Z, out)
  end.

(** The lines of one per-file report, written out: name and size, then
    either the parse error or the opset, the first input (when there is
    one) and every output with its ordinal, then an empty line. *)
Definition interface_lines (model : ModelProto) : list line :=
  Opset (match opset_import model with
         | first :: _ => VInt (version first)
         | [] => VStr "Unknown"
         end)
  :: match graph_input model with
     | t :: _ => [InputLine (vi_name t) (map dim_value (dim t))]
     | [] => []
     end
  ++ imap (fun i t => OutputLine (i + 1) (vi_name t) (map dim_value (dim t)))
          (graph_output model).

Definition report_lines (d : Directory) (onnx_file : string) : list line :=
  match getsize d onnx_file with
  | Raise _ => [FileName onnx_file]
  | Ok bytes =>
      FileName onnx_file :: FileSize (format_1f (mebibytes bytes))
      :: match onnx_load (path_str onnx_file) with
         | Raise e => [AnalysisError (VStr e)]
         | Ok model => interface_lines model
         end
      ++ [Blank]
  end.

(** The row, if any, that an entry of the reference table contributes. *)
Definition row_lines (d : Directory) (entry : string * string) : list line :=
  if path_exists d entry.1 then
    match getsize d entry.1 with
    | Ok bytes => [TableRow entry.1 (format_1f (mebibytes bytes)) "~2-9M" entry.2]
    | Raise _ => []
    end
  else [].
(** The whole report, written out. *)
Definition banner : list line :=
  [Text "🔍 ONNX Model Verification and Analysis"; Text (rule 60 "=")].
Definition table_intro : list line :=
  [Text "📊 Model Comparison for Raspberry Pi:"; Text (rule 80 "-");
   Text table_header; Text (rule 80 "-")].
Definition closing : list line :=
  [Text (rule 80 "-");
   Text "
🚀 Recommendations for Raspberry Pi:";
   Text "1. yolo11n.onnx - Best choice for real-time applications";
   Text "2. yolov10n.onnx - Latest architecture with good efficiency";
   Text "3. yolov8n.onnx - Reliable option with proven performance";
   Text "
💡 Usage with ONNX Runtime:";
   Text "   pip install onnxruntime";
   Text "   # For inference:";
   Text "   yolo predict model=checkpoints/yolo11n.onnx source=image.jpg"].

(** The per-file loop stops at the first file whose size cannot be read:
    the files whose report is at least begun, and how the loop ends. *)
Fixpoint reported (d : Directory) (files : list string) : list string :=
  match files with
  | [] => []
  | f :: rest =>
      match getsize d f with
      | Ok _ => f :: reported d rest
      | Raise _ => [f]
      end
  end.

Fixpoint reports_outcome (d : Directory) (files : list string) : result unit :=
  match files with
  | [] => Ok tt
  | f :: rest =>
      match getsize d f with
      | Ok _ => reports_outcome d rest
      | Raise e => Raise e
      end
  end.

Definition full_report (d : Directory) : list line :=
  let onnx_files := glob_ext ".onnx" (entries d).*1 in
  match onnx_files with
  | [] => banner ++ [Text "❌ No ONNX files found!"]
  | _ :: _ =>
      banner ++ FoundModels (length onnx_files)
      :: flat_map (report_lines d) (reported d (sorted onnx_files))
      ++ match reports_outcome d (sorted onnx_files) with
         | Ok _ => table_intro ++ flat_map (row_lines d) model_info ++ closing
         | Raise _ => []
         end
  end.

(** How the run ends: False when nothing is found, True after a complete
    report, and the exception of the per-file loop otherwise. *)
Definition run_outcome (d : Directory) : result bool :=
  let onnx_files := glob_ext ".onnx" (entries d).*1 in
  match onnx_files with
  | [] => Ok false
  | _ :: _ =>
      match reports_outcome d (sorted onnx_files) with
      | Ok _ => Ok true
      | Raise e => Raise e
      end
  end.

(** The lines printed for one file, taken on their own. *)
Definition file_report (d : Directory) (onnx_file : string) : list line :=
  snd (report_file d onnx_file []).

End Script.

(** Readings of a report. *)
Definition input_lines (out : list line) : list (string * list Z) :=
  omap (fun l => match l with InputLine n s => Some (n, s) | _ => None end) out.
Definition output_lines (out : list line) : list (nat * string * list Z) :=
  omap (fun l => match l with OutputLine i n s => Some (i, n, s) | _ => None end) out.
Definition table_rows (out : list line) : list (string * Z * string) :=
  omap (fun l => match l with TableRow n t _ d => Some (n, t, d) | _ => None end) out.

Definition file_names (out : list line) : list string :=
  omap (fun l => match l with FileName f => Some f | _ => None end) out.
Definition found_models (out : list line) : list nat :=
  omap (fun l => match l with FoundModels n => Some n | _ => None end) out.
Definition opset_lines (out : list line) : list value :=
  omap (fun l => match l with Opset v => Some v | _ => None end) out.

End Verifier.

(** ** Concrete worlds

    Small instances of the external capabilities, on which the scripts can
    be evaluated. *)

Module Sample.
Import Py.

(** A snapshot of the disk: the scan of [checkpoints] and the files that
    can be found by path. *)
Record World : Type := {
  listing : option (list string);
  disk : list (string * N)
}.

Definition scandir (w : World) : option (list string) := listing w.
Definition stat_size (w : World) (path : string) : option N :=
  (fun hit => hit.2.2) <$> list_find (fun e => e.1 = path) (disk w).

(** A loaded model is identified by the path it came from.  Loading the
    checkpoint called [b.pt] fails; every other one loads. *)
Definition Model : Type := string.
Definition YOLO (path : string) (w : World) : result Model * World :=
  if bool_decide (path = "checkpoints/b.pt")
  then (Raise "invalid checkpoint", w)
  else (Ok path, w).

(** Exporting writes a 1.5 MiB file next to the checkpoint. *)
Definition export (m : Model) (args : Converter.ExportArgs) (w : World)
    : result string * World :=
  let onnx_path := String.substring 0 (String.length m - 3) m +:+ ".onnx" in
  (Ok onnx_path,
   {| listing := listing w; disk := (onnx_path, 1572864%N) :: disk w |}).

(** Final component of a path directly below [checkpoints]. *)
Definition Path_name (path : string) : string :=
  String.substring 12 (String.length path - 12) path.

Definition run (w : World) : Z * Converter.State :=
  Converter.main scandir stat_size YOLO export Path_name w.

(** Worlds: no directory, an empty one, one valid and one corrupt
    checkpoint (scanned in the order b, a), and two valid ones. *)
Definition missing : World := {| listing := None; disk := [] |}.
Definition empty : World := {| listing := Some []; disk := [] |}.
Definition mixed : World :=
  {| listing := Some ["b.pt"; "notes.txt"; "a.pt"]; disk := [] |}.
Definition healthy : World :=
  {| listing := Some ["yolo11n.pt"; "yolov8n.pt"]; disk := [] |}.

(** Parsed models for the verifier: one input and two outputs, no
    declared input, and a file that does not parse. *)
Definition images : Verifier.ValueInfo :=
  {| Verifier.vi_name := "images"; Verifier.elem_type := 1;
     Verifier.dim := map (fun v => {| Verifier.dim_value := v;
                                       Verifier.dim_param := "" |})
                          [1; 3; 640; 640]%Z |}.
Definition head (n : string) : Verifier.ValueInfo :=
  {| Verifier.vi_name := n; Verifier.elem_type := 1;
     Verifier.dim := map (fun v => {| Verifier.dim_value := v;
                                       Verifier.dim_param := "" |})
                          [1; 84; 8400]%Z |}.
Definition two_heads : Verifier.ModelProto :=
  {| Verifier.graph_input := [images];
     Verifier.graph_output := [head "output0"; head "output1"];
     Verifier.opset_import := [{| Verifier.domain := ""; Verifier.version := 11 |}] |}.
Definition no_input : Verifier.ModelProto :=
  {| Verifier.graph_input := [];
     Verifier.graph_output := [head "output0"];
     Verifier.opset_import := [] |}.

Definition onnx_load (path : string) : result Verifier.ModelProto :=
  if bool_decide (path = "checkpoints/yolo11n.onnx") then Ok two_heads
  else if bool_decide (path = "checkpoints/const.onnx") then Ok no_input
  else Raise "Error parsing message".

Definition exports : Verifier.Directory :=
  Some [("yolov8n.onnx", Some 12582912%N); ("const.onnx", Some 262144%N);
        ("yolo11n.onnx", Some 10590610%N); ("yolo11n.pt", Some 5613764%N)].

(** A directory in which a link named [dangling.onnx] leads nowhere, and
    one with an exported model of 2^53 + 262145 bytes. *)
Definition with_dangling : Verifier.Directory :=
  Some [("yolo11n.onnx", Some 10590610%N); ("dangling.onnx", None)].
Definition huge : Verifier.Directory :=
  Some [("yolo11n.onnx", Some 9007199255003137%N)].

(** An exporter that always fails and writes nothing. *)
Definition export_failing (m : Model) (args : Converter.ExportArgs) (w : World)
    : result string * World :=
  (Raise "export failed", w).

(** A directory without checkpoints, and one without exported models. *)
Definition notes_only : World :=
  {| listing := Some ["notes.txt"; "model.onnx"]; disk := [] |}.
Definition checkpoints_only : Verifier.Directory :=
  Some [("yolo11n.pt", Some 5613764%N); ("notes.txt", Some 12%N)].

End Sample.

(** * Properties *)

(** ** Number formatting *)

Section Formatting.
Import Py.

(** The digit shown is within half a tenth of the value formatted. *)
Lemma format_1f_nearest (x : Q) :
  (Qabs (inject_Z (format_1f x) / 10 - x) <= 1 # 20)%Q.
Proof.
  destruct x as [n d]. unfold format_1f. cbn [Qnum Qden].
  set (a := (10 * n)%Z). set (D := Z.pos d).
  assert (HD : (0 < D)%Z) by (subst D; lia).
  pose proof (Z.div_mod a D ltac:(lia)) as Hdm.
  pose proof (Z.mod_pos_bound a D HD) as Hr.
  set (q := (a / D)%Z) in *. set (r := (a mod D)%Z) in *.
  assert (Hq : forall k : Z, (Z.abs (2 * (k * D - a)) <= D)%Z ->
             (Qabs (inject_Z k / 10 - (n # d)) <= 1 # 20)%Q).
  { intros k Hk. apply Qabs_Qle_condition.
    unfold Qle, Qdiv, Qminus, Qplus, Qmult, Qopp, Qinv, inject_Z; cbn.
    fold D. subst a. split; nia. }
  destruct (Z.compare_spec (2 * r) D) as [E|E|E].
  - destruct (Z.even q); apply Hq; nia.
  - apply Hq; nia.
  - apply Hq; nia.
Qed.

(** Below 2^53 bytes the float quotient is the exact one. *)
Lemma mebibytes_exact (bytes : N) :
  (bytes < 9007199254740992)%N -> mebibytes bytes = (Z.of_N bytes # 1048576).
Proof.
  intros Hlt. unfold mebibytes, round53. cbv zeta.
  assert (Hlog : (Z.log2 (Z.of_N bytes) - 52 <= 0)%Z).
  { destruct (decide (Z.of_N bytes = 0%Z)) as [->|Hne]; [done|].
    assert (Z.log2 (Z.of_N bytes) < 53)%Z; [|lia].
    apply Z.log2_lt_pow2; lia. }
  apply Z.leb_le in Hlog. by rewrite Hlog.
Qed.

End Formatting.

(** ** The converter *)

Section ConverterFacts.
Import Py Converter.
Context {World Model : Type}.
Variable scandir : World -> option (list string).
Variable stat_size : World -> string -> option N.
Variable YOLO : string -> World -> result Model * World.
Variable export : Model -> ExportArgs -> World -> result string * World.
Variable Path_name : string -> string.

Local Abbreviation State := (@State World Model).
Local Abbreviation try_convert := (try_convert YOLO export).
Local Abbreviation convert_loop := (convert_loop YOLO export).
Local Abbreviation spec_attempt := (spec_attempt YOLO export).
Local Abbreviation spec_outcomes := (spec_outcomes YOLO export).
Local Abbreviation checkpoint_files := (checkpoint_files scandir).
Local Abbreviation main := (main scandir stat_size YOLO export Path_name).
Local Abbreviation exit_status := (exit_status scandir stat_size YOLO export Path_name).
Local Abbreviation printed := (printed scandir stat_size YOLO export Path_name).
Local Abbreviation trace := (trace scandir stat_size YOLO export Path_name).
Local Abbreviation final_world := (final_world scandir stat_size YOLO export Path_name).
Local Abbreviation success_line := (success_line stat_size Path_name).
Local Abbreviation summary := (summary stat_size Path_name).

Ltac in_calls H :=
  repeat (apply elem_of_cons in H as [H|H]; [by simplify_eq|]);
  by apply elem_of_nil in H.




Lemma extends_trans (st0 st1 st2 : State) ls1 ls2 cs1 cs2 (w1 w2 : World) :
  extends st0 st1 ls1 cs1 w1 -> extends st1 st2 ls2 cs2 w2 ->
  extends st0 st2 (ls1 ++ ls2) (cs1 ++ cs2) w2.
Proof.
  intros [H1 H2 H3] [K1 K2 K3]. split; [| |done].
  - by rewrite K1, H1, (assoc_L (++)).
  - by rewrite K2, H2, (assoc_L (++)).
Qed.

Lemma print_extends (l : line) (st : State) :
  extends st (print l st).2 [l] [] (world st).
Proof. split; cbn; [done| by rewrite app_nil_r | done]. Qed.

Lemma try_convert_extends (name : string) (st : State) :
  exists ls cs,
    extends st (try_convert name st).2 ls cs (spec_attempt name (world st)).2 /\
    (try_convert name st).1 = (spec_attempt name (world st)).1 /\
    Forall loop_line ls /\
    caught ls = [] /\
    attempted cs = [path_str name] /\
    (forall m a r, CallExport m a r ∈ cs -> a = export_settings) /\
    exported cs = match (try_convert name st).1 with Ok p => [p] | Raise _ => [] end.
Proof.
  unfold Converter.try_convert, Converter.spec_attempt, bind, print, call_YOLO,
    call_export, ret. cbn.
  destruct (YOLO (path_str name) (world st)) as [[model|e] w1] eqn:Hload; cbn.
  - destruct (export model export_settings w1) as [[p|e] w2] eqn:Hexp; cbn.
    + exists [Converting name; Converted name; OnnxFile p],
        [CallYOLO (path_str name) (Ok model); CallExport model export_settings (Ok p)].
      split; [split; cbn; by rewrite <- ?(assoc_L (++))|].
      split_and!; try done.
      * repeat constructor.
      * intros m a r Hin. by in_calls Hin.
    + exists [Converting name],
        [CallYOLO (path_str name) (Ok model); CallExport model export_settings (Raise e)].
      split; [split; cbn; by rewrite <- ?(assoc_L (++))|].
      split_and!; try done.
      * repeat constructor.
      * intros m a r Hin. by in_calls Hin.
  - exists [Converting name], [CallYOLO (path_str name) (Raise e)].
    split; [split; cbn; by rewrite <- ?(assoc_L (++))|].
    split_and!; try done.
    + repeat constructor.
    + intros m a r Hin. by in_calls Hin.
Qed.

Lemma convert_loop_cons file rest successful failed (st : State) :
  convert_loop (file :: rest) successful failed st =
  match try_convert file st with
  | (Ok onnx_path, st1) =>
      convert_loop rest (successful ++ [(file, onnx_path)]) failed st1
  | (Raise e, st1) =>
      convert_loop rest successful (failed ++ [(file, e)])
        (print (ConvertFailed file e) st1).2
  end.
Proof.
  cbn [Converter.convert_loop]. unfold bind.
  by destruct (Converter.try_convert YOLO export file st) as [[p|e] st1].
Qed.

Lemma spec_outcomes_cons file rest (w : World) :
  spec_outcomes (file :: rest) w =
  (file, (spec_attempt file w).1) :: spec_outcomes rest (spec_attempt file w).2.
Proof. cbn. by destruct (spec_attempt file w). Qed.

(** The loop against the reference description: its two lists collect the
    outcomes of the batch, it hands every file to the loader in turn, and
    every export call carries the fixed settings. *)
Lemma convert_loop_extends (files : list string) :
  forall (successful failed : list (string * string)) (st : State),
  exists ls cs w',
    let os := spec_outcomes files (world st) in
    let res := convert_loop files successful failed st in
    extends st res.2 ls cs w' /\
    res.1.1 = successful ++ successes os /\
    res.1.2 = failed ++ failures os /\
    Forall loop_line ls /\
    caught ls = failures os /\
    attempted cs = map path_str files /\
    (forall m a r, CallExport m a r ∈ cs -> a = export_settings) /\
    exported cs = (successes os).*2.
Proof.
  induction files as [|file rest IH]; intros successful failed st.
  - exists [], [], (world st). cbn. rewrite !app_nil_r.
    split_and!; try done.
    + split; by rewrite ?app_nil_r.
    + intros m a r Hin. by in_calls Hin.
  - destruct (try_convert_extends file st)
      as (ls1 & cs1 & E1 & Hr & Hl1 & Hc1 & Ha1 & Hx1 & He1).
    destruct (try_convert file st) as [r st1] eqn:Htry.
    cbn [fst snd] in *.
    destruct r as [p|e].
    + destruct (IH (successful ++ [(file, p)]) failed st1)
        as (ls2 & cs2 & w2 & E2 & Hs & Hf & Hl2 & Hc2 & Ha2 & Hx2 & He2).
      exists (ls1 ++ ls2), (cs1 ++ cs2), w2. cbv zeta.
      rewrite convert_loop_cons, Htry, spec_outcomes_cons, <- Hr.
      rewrite <- (ext_world _ _ _ _ _ E1).
      split; [by eapply extends_trans|].
      rewrite Hs, Hf. unfold successes, failures, attempted, exported, caught in *.
      cbn. rewrite !omap_app, Ha1, Ha2, He1, He2, Hc1, Hc2.
      split_and!; try done.
      * by rewrite <- (assoc_L (++)).
      * by apply Forall_app.
      * intros m a r [?|?]%elem_of_app; eauto.
    + pose proof (print_extends (ConvertFailed file e) st1) as Ep.
      destruct (IH successful (failed ++ [(file, e)]) (print (ConvertFailed file e) st1).2)
        as (ls2 & cs2 & w2 & E2 & Hs & Hf & Hl2 & Hc2 & Ha2 & Hx2 & He2).
      pose proof (extends_trans _ _ _ _ _ _ _ _ _ E1 Ep) as E1'.
      rewrite app_nil_r in E1'.
      exists ((ls1 ++ [ConvertFailed file e]) ++ ls2), (cs1 ++ cs2), w2. cbv zeta.
      rewrite convert_loop_cons, Htry, spec_outcomes_cons, <- Hr.
      rewrite <- (ext_world _ _ _ _ _ E1).
      split; [by eapply extends_trans|].
      rewrite Hs, Hf. unfold successes, failures, attempted, exported, caught in *.
      cbn. rewrite !omap_app, Ha1, Ha2, He1, He2, Hc1, Hc2.
      split_and!; try done.
      * by rewrite <- (assoc_L (++)).
      * apply Forall_app; split; [|done].
        apply Forall_app; split; [done|]. by repeat constructor.
      * intros m a r [?|?]%elem_of_app; eauto.
Qed.

Lemma extends_eq (st st' : State) ls cs (w' : World) :
  extends st st' ls cs w' ->
  st' = {| world := w'; stdout := stdout st ++ ls; calls := calls st ++ cs |}.
Proof. intros [H1 H2 H3]. destruct st'. cbn in *. by subst. Qed.

Lemma for_each_print {A} (f : A -> line) (xs : list A) (st : State) :
  for_each xs (fun x => print (f x)) st =
  (tt, {| world := world st; stdout := stdout st ++ map f xs; calls := calls st |}).
Proof.
  revert st. induction xs as [|x xs IH]; intros st; cbn.
  - unfold ret. rewrite app_nil_r. by destruct st.
  - unfold bind, print at 1. rewrite IH. cbn. by rewrite <- (assoc_L (++)).
Qed.


Lemma for_each_success_rows (rows : list (string * string)) (st : State) :
  for_each rows (print_success_row stat_size Path_name) st =
  (tt, {| world := world st;
          stdout := stdout st ++ map (success_line (world st)) rows;
          calls := calls st |}).
Proof.
  revert st. induction rows as [|[o p] rows IH]; intros st; cbn.
  - unfold ret. rewrite app_nil_r. by destruct st.
  - unfold bind at 1. unfold print_success_row, bind, get_world, Converter.success_line. cbn.
    destruct (stat_size (world st) p); unfold print at 1; rewrite IH; cbn;
      by rewrite <- (assoc_L (++)).
Qed.

Lemma for_each_failed_rows (rows : list (string * string)) (st : State) :
  for_each rows print_failed_row st =
  (tt, {| world := world st;
          stdout := stdout st ++ map failed_line rows;
          calls := calls st |}).
Proof.
  rewrite <- for_each_print. revert st.
  induction rows as [|[o e] rows IH]; intros st; [done|].
  cbn. unfold bind. cbn. apply IH.
Qed.


(** A run that finds no directory, or no checkpoint in it. *)
Lemma main_missing (w : World) :
  scandir w = None ->
  main w = (1%Z, {| world := w; stdout := [DirNotFound checkpoints_dir]; calls := [] |}).
Proof.
  intros H. unfold Converter.main, convert_checkpoints_to_onnx, bind, get_world.
  cbn. by rewrite H.
Qed.

Lemma main_nothing_found (w : World) (entries : list string) :
  scandir w = Some entries -> glob_ext ".pt" entries = [] ->
  main w = (1%Z, {| world := w; stdout := [NoCheckpoints checkpoints_dir]; calls := [] |}).
Proof.
  intros H Hg. unfold Converter.main, convert_checkpoints_to_onnx, bind, get_world.
  cbn. rewrite H. by rewrite Hg.
Qed.

(** A run that finds checkpoints: the whole report, the calls made and the
    exit status, in terms of the outcomes of the batch. *)
Lemma main_batch (w : World) :
  let files := checkpoint_files w in
  let os := spec_outcomes files w in
  files <> [] ->
  exists ls cs w',
    main w =
      (if bool_decide (failures os = []) then 0%Z else 1%Z,
       {| world := w';
          stdout := Found (length files) :: map FoundFile files ++ Starting :: ls
                    ++ summary w' (successes os) (failures os);
          calls := cs |}) /\
    Forall loop_line ls /\
    caught ls = failures os /\
    attempted cs = map path_str files /\
    (forall m a r, CallExport m a r ∈ cs -> a = export_settings) /\
    exported cs = (successes os).*2.
Proof.
  intros files os Hne. subst os files. unfold Converter.checkpoint_files in *.
  unfold Converter.main, convert_checkpoints_to_onnx, bind at 1, get_world.
  cbn [initial world].
  destruct (scandir w) as [entries|] eqn:Hscan; [|done].
  cbn [from_option id] in *.
  revert Hne. destruct (glob_ext ".pt" entries) as [|f fs]; intros Hne; [congruence|].
  cbv iota. remember (f :: fs) as files eqn:Hfiles. clear Hfiles Hne.
  unfold bind at 1, print at 1. cbv beta iota. cbn [initial world stdout calls app].
  unfold bind at 1. rewrite for_each_print. cbv beta iota. cbn [world stdout calls].
  unfold bind at 1, print at 1. cbv beta iota. cbn [world stdout calls].
  unfold bind at 1.
  match goal with |- context [convert_loop files [] [] ?st] =>
    destruct (convert_loop_extends files [] [] st)
      as (ls & cs & w' & E & Hs & Hf & Hl & Hc & Ha & Hx & He);
    destruct (convert_loop files [] [] st) as [[successful failed] st'] eqn:Hloop
  end.
  cbn [fst snd world stdout calls app] in *. subst successful failed.
  apply extends_eq in E. subst st'. cbn [world stdout calls app].
  exists ls, cs, w'. split; [|done].
  set (S := successes _). set (F := failures _).
  unfold bind, print, ret. cbn [world stdout calls].
  destruct S as [|s S'] eqn:HS; destruct F as [|f' F'] eqn:HF;
    rewrite ?for_each_success_rows, ?for_each_failed_rows;
    cbn [world stdout calls fst snd length Nat.eqb bool_decide];
    unfold Converter.summary; f_equal; try done; f_equal;
    rewrite <- ?(assoc_L (++)); cbn; by rewrite ?app_nil_r, <- ?(assoc_L (++)).
Qed.

(** *** Reading the report *)

Lemma loop_lines_silent (ls : list line) :
  Forall loop_line ls ->
  success_rows ls = [] /\ failed_rows ls = [] /\
  successful_counts ls = [] /\ failed_counts ls = [].
Proof.
  induction 1 as [|l ls Hl _ (IH1 & IH2 & IH3 & IH4)]; [done|].
  unfold success_rows, failed_rows, successful_counts, failed_counts in *.
  destruct l; try done; cbn; by rewrite ?IH1, ?IH2, ?IH3, ?IH4.
Qed.

Lemma block_reading {A B} (f : line -> option A) (header : line)
    (g : B -> line) (rows : list B) :
  f header = None ->
  omap f (match rows with [] => [] | _ :: _ => header :: map g rows end)
  = omap f (map g rows).
Proof. intros H. destruct rows; [done|]. cbn. by rewrite H. Qed.

Lemma summary_readings (w : World) (successful failed : list (string * string)) :
  success_rows (summary w successful failed) = successful.*1 /\
  failed_rows (summary w successful failed) = failed /\
  successful_counts (summary w successful failed) = [length successful] /\
  failed_counts (summary w successful failed) = [length failed] /\
  caught (summary w successful failed) = [].
Proof.
  assert (Hs : forall rows,
    success_rows (map (success_line w) rows) = rows.*1 /\
    failed_rows (map (success_line w) rows) = [] /\
    successful_counts (map (success_line w) rows) = [] /\
    failed_counts (map (success_line w) rows) = [] /\
    caught (map (success_line w) rows) = []).
  { unfold success_rows, failed_rows, successful_counts, failed_counts, caught.
    induction rows as [|r rows (I1 & I2 & I3 & I4 & I5)]; [by split_and!|].
    cbn. by rewrite I1, I2, I3, I4, I5. }
  assert (Hf : forall rows,
    success_rows (map failed_line rows) = [] /\
    failed_rows (map failed_line rows) = rows /\
    successful_counts (map failed_line rows) = [] /\
    failed_counts (map failed_line rows) = [] /\
    caught (map failed_line rows) = []).
  { unfold success_rows, failed_rows, successful_counts, failed_counts, caught.
    induction rows as [|[o e] rows (I1 & I2 & I3 & I4 & I5)]; [by split_and!|].
    cbn. by rewrite I1, I2, I3, I4, I5. }
  unfold Converter.summary, success_rows, failed_rows, successful_counts, failed_counts, caught in *.
  destruct (Hs successful) as (S1 & S2 & S3 & S4 & S5).
  destruct (Hf failed) as (F1 & F2 & F3 & F4 & F5).
  rewrite !omap_app, !block_reading by done.
  rewrite S1, S2, S3, S4, S5, F1, F2, F3, F4, F5. cbn [omap app].
  by rewrite ?app_nil_r.
Qed.

(** Everything the claims read off a run that found checkpoints. *)
Lemma batch_readings (w : World) :
  let files := checkpoint_files w in
  let os := spec_outcomes files w in
  files <> [] ->
  exit_status w = (if bool_decide (failures os = []) then 0%Z else 1%Z) /\
  success_rows (printed w) = (successes os).*1 /\
  failed_rows (printed w) = failures os /\
  successful_counts (printed w) = [length (successes os)] /\
  failed_counts (printed w) = [length (failures os)] /\
  caught (printed w) = failures os /\
  attempted (trace w) = map path_str files /\
  (forall m a r, CallExport m a r ∈ trace w -> a = export_settings) /\
  exported (trace w) = (successes os).*2.
Proof.
  intros files os Hne.
  destruct (main_batch w Hne) as (ls & cs & w' & Hmain & Hl & Hc & Ha & Hx & He).
  fold files os in Hmain, Hc, Ha, He.
  unfold Converter.exit_status, Converter.printed, Converter.trace. rewrite Hmain.
  cbn [fst snd stdout calls].
  destruct (loop_lines_silent ls Hl) as (L1 & L2 & L3 & L4).
  destruct (summary_readings w' (successes os) (failures os)) as (S1 & S2 & S3 & S4 & S5).
  assert (Hread : forall (A : Type) (f : line -> option A),
    f (Found (length files)) = None -> (forall n, f (FoundFile n) = None) ->
    f Starting = None ->
    omap f (Found (length files) :: map FoundFile files ++ Starting :: ls
            ++ summary w' (successes os) (failures os))
    = omap f ls ++ omap f (summary w' (successes os) (failures os))).
  { intros A f H1 H2 H3. generalize files at 2. intros xs. cbn. rewrite H1.
    induction xs as [|x xs IH]; cbn.
    - by rewrite H3, omap_app.
    - by rewrite H2. }
  unfold success_rows, failed_rows, successful_counts, failed_counts, caught in *.
  rewrite !Hread by done.
  rewrite L1, L2, L3, L4, S1, S2, S3, S4, S5, Hc. cbn [app]. by rewrite ?app_nil_r.
Qed.

(** Readings of the runs that stop early. *)
Lemma early_readings (w : World) :
  checkpoint_files w = [] ->
  exit_status w = 1%Z /\ trace w = [] /\ final_world w = w /\
  success_rows (printed w) = [] /\ failed_rows (printed w) = [] /\
  successful_counts (printed w) = [] /\ failed_counts (printed w) = [] /\
  caught (printed w) = [].
Proof.
  unfold Converter.checkpoint_files, Converter.exit_status, Converter.trace,
    Converter.final_world, Converter.printed.
  destruct (scandir w) as [entries|] eqn:Hscan; cbn [from_option id]; intros Hg.
  - by rewrite (main_nothing_found w entries Hscan Hg).
  - by rewrite (main_missing w Hscan).
Qed.

(** *** The outcomes of a batch *)

Lemma spec_outcomes_files (files : list string) (w : World) :
  (spec_outcomes files w).*1 = files.
Proof.
  revert w. induction files as [|f fs IH]; intros w; [done|].
  rewrite spec_outcomes_cons. cbn. by rewrite IH.
Qed.

Lemma outcomes_partition (os : list (string * result string)) :
  (successes os).*1 ++ (failures os).*1 ≡ₚ os.*1.
Proof.
  induction os as [|[f [p|e]] os IH]; [done| |]; cbn.
  - by rewrite IH.
  - rewrite <- Permutation_middle. by rewrite IH.
Qed.

(** *** Exit status *)

(** C1. The exit status is 0 exactly when the summary reports a failure
    count of zero, that is when checkpoints were found and none of them
    failed; it is 1 exactly when the directory is missing, no checkpoint is
    found, or some conversion fails. *)
Theorem converter_exit_status (w : World) :
  let os := spec_outcomes (checkpoint_files w) w in
  (exit_status w = 0%Z <-> failed_counts (printed w) = [0]) /\
  (exit_status w = 0%Z <-> checkpoint_files w <> [] /\ length (failures os) = 0) /\
  (exit_status w = 1%Z <->
     scandir w = None \/ checkpoint_files w = [] \/ length (failures os) <> 0).
Proof.
  intros os.
  destruct (decide (checkpoint_files w = [])) as [Hnone|Hsome].
  - destruct (early_readings w Hnone) as (He & _ & _ & _ & _ & _ & Hc & _).
    rewrite He, Hc. split_and!; split; try done; tauto.
  - destruct (batch_readings w Hsome) as (He & _ & _ & _ & Hc & _).
    fold os in He, Hc. rewrite He, Hc.
    assert (Hdir : scandir w <> None).
    { intros Hn. apply Hsome. unfold Converter.checkpoint_files. by rewrite Hn. }
    destruct (failures os) as [|f fs]; cbn; split_and!; split; try done; try tauto.
    + intros [_ ?]; done.
    + intros _. right; right; done.
Qed.

(** *** Bookkeeping *)

(** C2. The rows listed as successful together with the rows listed as
    failed name each discovered file exactly once, so the two lists have N
    entries between them when N files are discovered; when the summary is
    printed (N > 0) it shows exactly one successful count and one failed
    count, the lengths of the two lists, which therefore add up to N. *)
Theorem converter_counts_add_up (w : World) :
  success_rows (printed w) ++ (failed_rows (printed w)).*1 ≡ₚ checkpoint_files w /\
  length (success_rows (printed w)) + length (failed_rows (printed w))
    = length (checkpoint_files w) /\
  (checkpoint_files w <> [] ->
   exists s f,
     successful_counts (printed w) = [s] /\
     failed_counts (printed w) = [f] /\
     s = length (success_rows (printed w)) /\
     f = length (failed_rows (printed w)) /\
     s + f = length (checkpoint_files w)).
Proof.
  set (os := spec_outcomes (checkpoint_files w) w).
  assert (Hp : (successes os).*1 ++ (failures os).*1 ≡ₚ checkpoint_files w).
  { rewrite outcomes_partition. unfold os. by rewrite spec_outcomes_files. }
  assert (Hlen : length (successes os) + length (failures os)
                 = length (checkpoint_files w)).
  { apply Permutation_length in Hp. by rewrite length_app, !length_fmap in Hp. }
  destruct (decide (checkpoint_files w = [])) as [Hnone|Hsome].
  - destruct (early_readings w Hnone) as (_ & _ & _ & Hs & Hf & _).
    rewrite Hs, Hf, Hnone. by split_and!.
  - destruct (batch_readings w Hsome) as (_ & Hs & Hf & Hsc & Hfc & _).
    fold os in Hs, Hf, Hsc, Hfc. rewrite Hs, Hf, Hsc, Hfc, length_fmap.
    split_and!; [done..|]. intros _.
    exists (length (successes os)), (length (failures os)). by split_and!.
Qed.

(** *** Failure isolation *)

(** C3. Every discovered file is handed to the loader, in turn, whatever
    happened to the files before it; each attempt that raises, in the load
    or in the export, is reported by the handler and listed in the summary
    as the pair of the file name and the exception message, and nothing else
    is. *)
Theorem converter_failures_isolated (w : World) :
  let files := checkpoint_files w in
  attempted (trace w) = map path_str files /\
  caught (printed w) = failures (spec_outcomes files w) /\
  failed_rows (printed w) = failures (spec_outcomes files w) /\
  length (spec_outcomes files w) = length files.
Proof.
  intros files.
  assert (Hlen : length (spec_outcomes files w) = length files).
  { by rewrite <- (spec_outcomes_files files w) at 2; rewrite length_fmap. }
  destruct (decide (files = [])) as [Hnone|Hsome].
  - destruct (early_readings w Hnone) as (_ & Ht & _ & _ & Hf & _ & _ & Hc).
    rewrite Ht, Hf, Hc. fold files. by rewrite Hnone.
  - destruct (batch_readings w Hsome) as (_ & _ & Hf & _ & _ & Hc & Ha & _).
    by rewrite Hf, Hc, Ha.
Qed.

(** *** Order of processing *)

(** C4, as amended. The files are attempted in the order in which the scan
    of the directory yields the matching names; that sequence is a
    rearrangement of the sorted one. *)
Theorem converter_attempts_in_scan_order (w : World) :
  attempted (trace w)
    = map path_str (filter (fun n => Is_true (endswith n ".pt")) (default [] (scandir w))) /\
  attempted (trace w) ≡ₚ map path_str (sorted (checkpoint_files w)).
Proof.
  assert (H : attempted (trace w) = map path_str (checkpoint_files w)).
  { destruct (decide (checkpoint_files w = [])) as [Hnone|Hsome].
    - destruct (early_readings w Hnone) as (_ & Ht & _). by rewrite Ht, Hnone.
    - by destruct (batch_readings w Hsome) as (_ & _ & _ & _ & _ & _ & Ha & _). }
  split; [done|]. rewrite H. unfold sorted.
  by rewrite merge_sort_Permutation.
Qed.

(** *** Export configuration *)

Lemma spec_calls_cons file rest (w : World) :
  spec_calls YOLO export (file :: rest) w
  = spec_calls YOLO export [file] w
    ++ spec_calls YOLO export rest (spec_attempt file w).2.
Proof.
  cbn [Converter.spec_calls]. unfold Converter.spec_attempt, export_settings.
  destruct (YOLO (path_str file) w) as [[model|e] w1]; [|done].
  by destruct (export model _ w1) as [r w2].
Qed.

Lemma try_convert_calls (name : string) (st : State) :
  calls (try_convert name st).2
  = calls st ++ spec_calls YOLO export [name] (world st).
Proof.
  unfold Converter.try_convert, bind, print, call_YOLO, call_export, ret,
    export_settings. cbn.
  destruct (YOLO (path_str name) (world st)) as [[model|e] w1]; cbn; [|done].
  destruct (export model _ w1) as [[p|e] w2]; cbn; by rewrite <- (assoc_L (++)).
Qed.

Lemma convert_loop_calls (files : list string) :
  forall (successful failed : list (string * string)) (st : State),
    calls (convert_loop files successful failed st).2
    = calls st ++ spec_calls YOLO export files (world st).
Proof.
  induction files as [|file rest IH]; intros successful failed st.
  - cbn. by rewrite app_nil_r.
  - rewrite convert_loop_cons, spec_calls_cons.
    pose proof (try_convert_calls file st) as Hc.
    destruct (try_convert_extends file st) as (ls & cs & E & _).
    pose proof (ext_world _ _ _ _ _ E) as Hw.
    destruct (try_convert file st) as [[p|e] st1]; cbn [fst snd] in *.
    + by rewrite IH, Hc, Hw, (assoc_L (++)).
    + rewrite IH. cbn [print snd calls world]. by rewrite Hc, Hw, (assoc_L (++)).
Qed.

Lemma main_calls (w : World) :
  trace w = spec_calls YOLO export (checkpoint_files w) w.
Proof.
  destruct (decide (checkpoint_files w = [])) as [Hnone|Hsome].
  { destruct (early_readings w Hnone) as (_ & Ht & _). by rewrite Ht, Hnone. }
  unfold Converter.trace, Converter.checkpoint_files in *.
  unfold Converter.main, convert_checkpoints_to_onnx, bind at 1, get_world.
  cbn [initial world].
  destruct (scandir w) as [entries|] eqn:Hscan; [|done].
  cbn [from_option id] in *.
  revert Hsome. destruct (glob_ext ".pt" entries) as [|f fs]; intros Hsome; [congruence|].
  cbv iota. remember (f :: fs) as files eqn:Hfiles. clear Hfiles Hsome.
  unfold bind at 1, print at 1. cbv beta iota. cbn [initial world stdout calls app].
  unfold bind at 1. rewrite for_each_print. cbv beta iota. cbn [world stdout calls].
  unfold bind at 1, print at 1. cbv beta iota. cbn [world stdout calls].
  unfold bind at 1.
  match goal with |- context [convert_loop files [] [] ?st] =>
    pose proof (convert_loop_calls files [] [] st) as Hc;
    destruct (convert_loop files [] [] st) as [[successful failed] st'] eqn:Hloop
  end.
  cbn [fst snd world stdout calls app] in *. rewrite <- Hc.
  unfold bind, print, ret. cbn [world stdout calls].
  destruct successful as [|s S']; destruct failed as [|f' F'];
    rewrite ?for_each_success_rows, ?for_each_failed_rows; done.
Qed.

Lemma spec_calls_settings (files : list string) (w : World) :
  Forall (fun c =>
            match c with
            | CallExport _ args _ =>
                args = {| format := "onnx"; imgsz := 640; optimize := true;
                          half := false; dynamic := false; simplify := true;
                          opset := 11 |}
            | CallYOLO _ _ => True
            end) (spec_calls YOLO export files w) /\
  (forall path model,
     CallYOLO path (Ok model) ∈ spec_calls YOLO export files w ->
     exists r,
       CallExport model
         {| format := "onnx"; imgsz := 640; optimize := true; half := false;
            dynamic := false; simplify := true; opset := 11 |} r
       ∈ spec_calls YOLO export files w).
Proof.
  revert w. induction files as [|file rest IH]; intros w.
  { split; [constructor|]. intros path model Hin. by apply elem_of_nil in Hin. }
  cbn [Converter.spec_calls].
  destruct (YOLO (path_str file) w) as [[model|e] w1].
  - destruct (export model _ w1) as [r w2]. destruct (IH w2) as [IH1 IH2]. split.
    + by repeat constructor.
    + intros path model' Hin.
      apply elem_of_cons in Hin as [[= _ <-]|Hin].
      { exists r. right. left. }
      apply elem_of_cons in Hin as [?|Hin]; [done|].
      destruct (IH2 _ _ Hin) as [r' Hr']. exists r'. by do 2 right.
  - destruct (IH w1) as [IH1 IH2]. split.
    + by constructor.
    + intros path model' Hin. apply elem_of_cons in Hin as [?|Hin]; [done|].
      destruct (IH2 _ _ Hin) as [r' Hr']. exists r'. by right.
Qed.

(** C5. The library calls of a run are exactly one load per discovered
    file, in order, and, after every load that returns a model, one export
    of that model.  Every export call carries the ONNX format, image size
    640, optimisation on, half precision off, dynamic shapes off,
    simplification on and opset 11; every model a load returns is exported
    with these settings; and the files listed as converted are those for
    which such a call returned. *)
Theorem converter_export_settings (w : World) :
  trace w = spec_calls YOLO export (checkpoint_files w) w /\
  Forall (fun c =>
            match c with
            | CallExport _ args _ =>
                args = {| format := "onnx"; imgsz := 640; optimize := true;
                          half := false; dynamic := false; simplify := true;
                          opset := 11 |}
            | CallYOLO _ _ => True
            end) (trace w) /\
  (forall path model,
     CallYOLO path (Ok model) ∈ trace w ->
     exists r,
       CallExport model
         {| format := "onnx"; imgsz := 640; optimize := true; half := false;
            dynamic := false; simplify := true; opset := 11 |} r
       ∈ trace w) /\
  attempted (trace w) = map path_str (checkpoint_files w) /\
  length (exported (trace w)) = length (success_rows (printed w)).
Proof.
  split; [apply main_calls|].
  destruct (spec_calls_settings (checkpoint_files w) w) as [H1 H2].
  rewrite <- main_calls in H1, H2. split; [done|]. split; [done|].
  destruct (decide (checkpoint_files w = [])) as [Hnone|Hsome].
  - destruct (early_readings w Hnone) as (_ & Ht & _ & Hs & _).
    by rewrite Ht, Hs, Hnone.
  - destruct (batch_readings w Hsome) as (_ & Hs & _ & _ & _ & _ & Ha & _ & He).
    split; [done|]. by rewrite He, Hs, !length_fmap.
Qed.

(** *** Missing directory *)

(** C8. When the checkpoints directory does not exist the run reports it
    and stops: exit status 1, no load and no export call, and the world is
    left as it was. *)
Theorem converter_missing_directory (w : World) :
  scandir w = None ->
  exit_status w = 1%Z /\
  trace w = [] /\
  final_world w = w /\
  printed w = [DirNotFound "checkpoints"].
Proof.
  intros H. unfold Converter.exit_status, Converter.trace, Converter.final_world,
    Converter.printed. by rewrite (main_missing w H).
Qed.

End ConverterFacts.

(** *** The sample worlds *)

Section ConverterSamples.
Import Py Converter Sample.

Lemma converter_counts_add_up_witness :
  successful_counts (printed scandir stat_size YOLO export Path_name mixed) = [1] /\
  failed_counts (printed scandir stat_size YOLO export Path_name mixed) = [1] /\
  length (checkpoint_files scandir mixed) = 2 /\
  exists s f,
    successful_counts (printed scandir stat_size YOLO export Path_name mixed) = [s] /\
    failed_counts (printed scandir stat_size YOLO export Path_name mixed) = [f] /\
    s = length (success_rows (printed scandir stat_size YOLO export Path_name mixed)) /\
    f = length (failed_rows (printed scandir stat_size YOLO export Path_name mixed)) /\
    s + f = length (checkpoint_files scandir mixed).
Proof.
  split; [reflexivity|]. split; [reflexivity|]. split; [reflexivity|].
  apply (converter_counts_add_up scandir stat_size YOLO export Path_name mixed).
  vm_compute. discriminate.
Defined.

(** C4, as stated, fails: the scan yields [b.pt] before [a.pt], and the
    converter attempts them in that order. *)
Lemma converter_order_not_lexical :
  attempted (trace scandir stat_size YOLO export Path_name mixed)
    = ["checkpoints/b.pt"; "checkpoints/a.pt"] /\
  map path_str (sorted (checkpoint_files scandir mixed))
    = ["checkpoints/a.pt"; "checkpoints/b.pt"] /\
  attempted (trace scandir stat_size YOLO export Path_name mixed)
    <> map path_str (sorted (checkpoint_files scandir mixed)).
Proof. split_and!; by vm_compute. Qed.

Lemma converter_missing_directory_witness :
  scandir missing = None /\
  exit_status scandir stat_size YOLO export Path_name missing = 1%Z /\
  trace scandir stat_size YOLO export Path_name missing = [] /\
  final_world scandir stat_size YOLO export Path_name missing = missing /\
  printed scandir stat_size YOLO export Path_name missing = [DirNotFound "checkpoints"].
Proof.
  split; [reflexivity|].
  apply (converter_missing_directory scandir stat_size YOLO export Path_name missing).
  reflexivity.
Defined.

(** The scenario of the specification: a valid [a.pt] and a corrupt [b.pt]. *)
Example converter_mixed_scenario :
  exit_status scandir stat_size YOLO export Path_name mixed = 1%Z /\
  printed scandir stat_size YOLO export Path_name mixed =
    [Found 2; FoundFile "b.pt"; FoundFile "a.pt"; Starting;
     Converting "b.pt"; ConvertFailed "b.pt" "invalid checkpoint";
     Converting "a.pt"; Converted "a.pt"; OnnxFile "checkpoints/a.onnx";
     SummaryHeader; SuccessfulCount 1; FailedCount 1;
     SuccessHeader; SuccessRow "a.pt" "a.onnx" (Some 15%Z);
     FailedHeader; FailedRow "b.pt" "invalid checkpoint"].
Proof. split; by vm_compute. Qed.

Example converter_healthy_scenario :
  exit_status scandir stat_size YOLO export Path_name healthy = 0%Z /\
  exit_status scandir stat_size YOLO export Path_name empty = 1%Z.
Proof. split; by vm_compute. Qed.

End ConverterSamples.

(** ** The verifier *)

Section VerifierFacts.
Import Py Verifier.
Variable onnx_load : string -> result ModelProto.

Local Abbreviation analyze_body := (analyze_body onnx_load).
Local Abbreviation analyze_onnx_model := (analyze_onnx_model onnx_load).
Local Abbreviation report_file := (report_file onnx_load).
Local Abbreviation file_report := (file_report onnx_load).
Local Abbreviation verify_onnx_exports := (verify_onnx_exports onnx_load).
Local Abbreviation main := (main onnx_load).
Local Abbreviation report_lines := (report_lines onnx_load).
Local Abbreviation report_interface := (@report_interface).
Local Abbreviation full_report := (full_report onnx_load).

(** *** The file system *)

Lemma getsize_stat (d : Directory) (file : string) (bytes : N) :
  getsize d file = Ok bytes <-> stat d file = Some bytes.
Proof. unfold getsize. destruct (stat d file); split; congruence. Qed.

Lemma stat_listed (d : Directory) (file : string) (bytes : N) :
  stat d file = Some bytes -> (file, Some bytes) ∈ entries d.
Proof.
  unfold stat.
  destruct (list_find (fun e => e.1 = file) (entries d)) as [[i [n size]]|] eqn:Hfind;
    [|done].
  intros ->. apply list_find_Some in Hfind as (Hi & Hn & _). cbn in Hn. subst n.
  by eapply list_elem_of_lookup_2.
Qed.

Lemma path_exists_getsize (d : Directory) (file : string) :
  path_exists d file = true <-> exists bytes, getsize d file = Ok bytes.
Proof.
  unfold path_exists, getsize. rewrite bool_decide_eq_true.
  destruct (stat d file) as [bytes|]; split.
  - eauto.
  - by intros _.
  - by intros [? ?].
  - by intros [? ?].
Qed.

(** *** The analysis *)

Lemma analysis_lookups (model : ModelProto) (file : string) :
  onnx_load (path_str file) = Ok model ->
  let analysis := analyze_onnx_model file in
  analysis !! "error" = None /\
  analysis !! "opset_version" =
    Some (match opset_import model with
          | first :: _ => VInt (version first)
          | [] => VStr "Unknown"
          end) /\
  analysis !! "inputs" = Some (VTensors (map tensor_info (graph_input model))) /\
  analysis !! "outputs" = Some (VTensors (map tensor_info (graph_output model))).
Proof.
  intros Hload. unfold Verifier.analyze_onnx_model, Verifier.analyze_body.
  rewrite Hload. cbv zeta. split_and!; by simplify_map_eq.
Qed.

(** C10. The analysis never raises: when the file parses it is the
    dictionary with exactly the keys 'inputs', 'outputs' and
    'opset_version'; when parsing raises it is the dictionary whose only
    key, 'error', holds the exception message. *)
Theorem analyze_onnx_model_total (file : string) :
  (exists model,
     onnx_load (path_str file) = Ok model /\
     dom (analyze_onnx_model file) = ({["inputs"; "outputs"; "opset_version"]} : gset string) /\
     analyze_onnx_model file !! "inputs"
       = Some (VTensors (map tensor_info (graph_input model))) /\
     analyze_onnx_model file !! "outputs"
       = Some (VTensors (map tensor_info (graph_output model))) /\
     (exists v, analyze_onnx_model file !! "opset_version" = Some v /\
                (v = VStr "Unknown" \/ exists z, v = VInt z)))
  \/
  (exists msg,
     onnx_load (path_str file) = Raise msg /\
     analyze_onnx_model file = {[ "error" := VStr msg ]} /\
     dom (analyze_onnx_model file) = ({[ "error" ]} : gset string)).
Proof.
  destruct (onnx_load (path_str file)) as [model|msg] eqn:Hload.
  - left. exists model. split; [done|].
    destruct (analysis_lookups model file Hload) as (_ & Ho & Hi & Hu).
    split_and!; [|done|done|].
    + unfold Verifier.analyze_onnx_model, Verifier.analyze_body. rewrite Hload.
      rewrite !dom_insert_L, dom_empty_L. set_solver.
    + eexists. split; [exact Ho|]. destruct (opset_import model); eauto.
  - right. exists msg. split; [done|].
    unfold Verifier.analyze_onnx_model, Verifier.analyze_body. rewrite Hload.
    split; [done|]. by rewrite dom_singleton_L.
Qed.


(** *** The per-file report *)

Lemma for_each_print_outputs (ts : list TensorInfo) (start : nat) (out : list line) :
  for_each (enumerate_from start ts)
    (fun io => print (OutputLine (io.1 + 1) (name io.2) (shape io.2))) out
  = (Ok tt, out ++ imap (fun i t => OutputLine (start + i + 1) (name t) (shape t)) ts).
Proof.
  revert start out. induction ts as [|t ts IH]; intros start out; cbn.
  - by rewrite app_nil_r.
  - unfold bind, print at 1. rewrite IH. rewrite <- (assoc_L (++)). cbn.
    rewrite Nat.add_0_r. do 3 f_equal. apply imap_ext. intros i x _. cbn.
    f_equal. lia.
Qed.

Lemma report_interface_lines (model : ModelProto) (file : string) (out : list line) :
  onnx_load (path_str file) = Ok model ->
  report_interface (analyze_onnx_model file) out
  = (Ok tt, out ++ interface_lines model).
Proof.
  intros Hload.
  destruct (analysis_lookups model file Hload) as (_ & Ho & Hi & Hu).
  unfold report_interface, interface_lines, getitem, bind at 1.
  rewrite Ho. unfold ret at 1. unfold bind at 1, print at 1.
  unfold bind at 1. rewrite Hi. unfold ret at 1. unfold bind at 1. cbn [truthy].
  assert (Houtputs : forall out,
    bind (match analyze_onnx_model file !! "outputs" with
          | Some v => ret v
          | None => raise ("'" +:+ "outputs" +:+ "'")
          end)
      (fun outputs =>
         if truthy outputs
         then bind (tensors_of outputs)
                (fun ts => for_each (enumerate ts)
                   (fun io => print (OutputLine (io.1 + 1) (name io.2) (shape io.2))))
         else ret tt) out
    = (Ok tt, out ++ imap (fun i t => OutputLine (i + 1) (vi_name t) (map dim_value (dim t)))
                          (graph_output model))).
  { intros out'. rewrite Hu. unfold bind at 1, ret at 1. cbn [truthy].
    destruct (graph_output model) as [|t ts] eqn:Hg.
    - cbn. by rewrite app_nil_r.
    - rewrite bool_decide_eq_false_2 by done. cbn [negb].
      unfold bind, tensors_of, ret, enumerate. rewrite for_each_print_outputs.
      by rewrite imap_fmap. }
  destruct (graph_input model) as [|t ts] eqn:Hin.
  - cbn [map bool_decide decide_rel negb]. rewrite bool_decide_eq_true_2 by done.
    cbn [negb]. unfold ret at 1. rewrite Houtputs. by rewrite <- (assoc_L (++)).
  - rewrite bool_decide_eq_false_2 by done. cbn [negb].
    unfold bind at 1, tensors_of, ret at 1. cbn [map]. unfold print at 1.
    rewrite Houtputs. rewrite <- !(assoc_L (++)). done.
Qed.

Lemma report_file_lines (d : Directory) (file : string) (out : list line) :
  report_file d file out
  = (match getsize d file with Ok _ => Ok tt | Raise e => Raise e end,
     out ++ report_lines d file).
Proof.
  unfold Verifier.report_file, Verifier.report_lines, get_file_size_mb, lift.
  destruct (getsize d file) as [bytes|msg] eqn:Hsize.
  - unfold bind at 1, print at 1. unfold bind at 1.
    unfold bind at 1, print at 1. unfold bind at 1.
    destruct (onnx_load (path_str file)) as [model|e] eqn:Hload.
    + destruct (analysis_lookups model file Hload) as (He & _).
      rewrite bool_decide_eq_false_2 by (rewrite He; by intros [? ?]).
      rewrite (report_interface_lines model) by done.
      unfold print. rewrite <- !(assoc_L (++)). done.
    + unfold Verifier.analyze_onnx_model, Verifier.analyze_body. rewrite Hload.
      rewrite bool_decide_eq_true_2 by (by rewrite lookup_singleton_eq).
      unfold getitem. rewrite lookup_singleton_eq.
      unfold bind, ret, print. rewrite <- !(assoc_L (++)). done.
  - unfold bind at 1, print at 1. by unfold bind at 1.
Qed.


Lemma for_each_reports (d : Directory) (files : list string) (out : list line) :
  for_each files (report_file d) out
  = (reports_outcome d files, out ++ flat_map (report_lines d) (reported d files)).
Proof.
  revert out. induction files as [|f fs IH]; intros out; cbn.
  - by rewrite app_nil_r.
  - unfold bind. rewrite report_file_lines.
    destruct (getsize d f) as [bytes|msg].
    + rewrite IH. cbn. by rewrite <- (assoc_L (++)).
    + cbn. by rewrite app_nil_r.
Qed.

(** *** The reference table *)

Lemma for_each_rows (d : Directory) (es : list (string * string)) (out : list line) :
  for_each es (table_row d) out = (Ok tt, out ++ flat_map (row_lines d) es).
Proof.
  revert out. induction es as [|[n desc] es IH]; intros out; cbn.
  - by rewrite app_nil_r.
  - unfold bind at 1, table_row, row_lines. cbn [fst snd].
    destruct (path_exists d n) eqn:Hex.
    + apply path_exists_getsize in Hex as (bytes & Hsize).
      unfold get_file_size_mb, lift, bind at 1. rewrite Hsize.
      unfold print at 1. rewrite IH. by rewrite <- (assoc_L (++)).
    + unfold ret at 1. rewrite IH. reflexivity.
Qed.

(** *** The whole run *)

Lemma verify_run (d : Directory) :
  verify_onnx_exports d [] = (run_outcome d, full_report d).
Proof.
  unfold Verifier.verify_onnx_exports, Verifier.full_report, Verifier.run_outcome.
  cbv zeta.
  unfold bind at 1, print at 1. unfold bind at 1, print at 1. cbn [app].
  destruct (glob_ext ".onnx" (entries d).*1) as [|f fs]; [done|].
  remember (f :: fs) as files eqn:Hfiles. clear Hfiles.
  unfold bind at 1, print at 1. unfold bind at 1.
  rewrite for_each_reports.
  destruct (reports_outcome d (sorted files)) as [[]|msg].
  - do 4 (unfold bind at 1, print at 1). unfold bind at 1.
    rewrite for_each_rows.
    unfold bind, print, ret. f_equal. unfold banner, table_intro, closing.
    rewrite <- !(assoc_L (++)). reflexivity.
  - f_equal. unfold banner. rewrite app_nil_r, <- !(assoc_L (++)). reflexivity.
Qed.

Lemma main_report (d : Directory) :
  main d = (match run_outcome d with Ok _ => 0%Z | Raise _ => 1%Z end, full_report d).
Proof. unfold Verifier.main. rewrite verify_run. by destruct (run_outcome d). Qed.

(** The loop runs through when every file can be stat'ed, and then every
    file is reported. *)
Lemma reports_complete (d : Directory) (files : list string) :
  Forall (fun f => path_exists d f = true) files ->
  reports_outcome d files = Ok tt /\ reported d files = files.
Proof.
  induction 1 as [|f fs Hf _ [IH1 IH2]]; [done|]. cbn.
  apply path_exists_getsize in Hf as [bytes ->]. by rewrite IH1, IH2.
Qed.

Lemma reports_complete_inv (d : Directory) (files : list string) :
  reports_outcome d files = Ok tt ->
  Forall (fun f => path_exists d f = true) files.
Proof.
  induction files as [|f fs IH]; [by constructor|]. cbn.
  destruct (getsize d f) as [bytes|msg] eqn:Hsize; [|done].
  intros H. constructor; [|by apply IH]. apply path_exists_getsize. eauto.
Qed.

Lemma reported_split (d : Directory) (l1 l2 : list string) (file : string) :
  Forall (fun f => path_exists d f = true) l1 ->
  path_exists d file = true ->
  reported d (l1 ++ file :: l2) = l1 ++ file :: reported d l2.
Proof.
  intros H1 Hf. induction H1 as [|f fs Hx _ IH]; cbn.
  - by apply path_exists_getsize in Hf as [bytes ->].
  - apply path_exists_getsize in Hx as [bytes ->]. by rewrite IH.
Qed.

Lemma reported_prefix (d : Directory) (files : list string) :
  reported d files `prefix_of` files.
Proof.
  induction files as [|f fs IH]; [done|]. cbn.
  destruct (getsize d f); [by apply prefix_cons|].
  by apply prefix_cons, prefix_nil.
Qed.

(** *** Reading the report *)

Lemma omap_cons_none {A B} (f : A -> option B) (x : A) (l : list A) :
  f x = None -> omap f (x :: l) = omap f l.
Proof. intros H. cbn. by rewrite H. Qed.

Lemma omap_imap_none {A B C} (f : B -> option C) (g : nat -> A -> B) (l : list A) :
  (forall i x, f (g i x) = None) -> omap f (imap g l) = [].
Proof.
  revert g. induction l as [|x l IH]; intros g Hg; [done|].
  cbn. rewrite Hg. apply IH. intros i y. apply Hg.
Qed.

Lemma omap_imap_some {A B C} (f : B -> option C) (g : nat -> A -> B)
    (h : nat -> A -> C) (l : list A) :
  (forall i x, f (g i x) = Some (h i x)) -> omap f (imap g l) = imap h l.
Proof.
  revert g h. induction l as [|x l IH]; intros g h Hg; [done|].
  cbn. rewrite Hg. f_equal. apply IH. intros i y. apply Hg.
Qed.

Lemma omap_flat_map {A B C} (f : B -> option C) (g : A -> list B) (l : list A) :
  omap f (flat_map g l) = flat_map (fun x => omap f (g x)) l.
Proof. induction l as [|x l IH]; [done|]. cbn. by rewrite omap_app, IH. Qed.

Lemma interface_readings (model : ModelProto) :
  input_lines (interface_lines model)
    = match graph_input model with
      | t :: _ => [(vi_name t, map dim_value (dim t))]
      | [] => []
      end /\
  output_lines (interface_lines model)
    = imap (fun i t => (i + 1, vi_name t, map dim_value (dim t))) (graph_output model) /\
  table_rows (interface_lines model) = [].
Proof.
  unfold input_lines, output_lines, table_rows, interface_lines.
  rewrite !omap_cons_none by done. rewrite !omap_app.
  split_and!.
  - rewrite omap_imap_none by done. destruct (graph_input model); by cbn.
  - rewrite (omap_imap_some _ _
               (fun i t => (i + 1, vi_name t, map dim_value (dim t)))) by done.
    destruct (graph_input model); by cbn.
  - rewrite omap_imap_none by done. destruct (graph_input model); by cbn.
Qed.

Lemma report_readings (d : Directory) (file : string) :
  table_rows (report_lines d file) = [] /\
  forall model bytes,
    getsize d file = Ok bytes -> onnx_load (path_str file) = Ok model ->
    input_lines (report_lines d file) = input_lines (interface_lines model) /\
    output_lines (report_lines d file) = output_lines (interface_lines model).
Proof.
  unfold Verifier.report_lines. split.
  - destruct (getsize d file); [|done].
    destruct (onnx_load (path_str file)) as [model|e]; [|done].
    destruct (interface_readings model) as (_ & _ & Ht).
    unfold table_rows in *. rewrite !omap_cons_none by done.
    by rewrite omap_app, Ht.
  - intros model bytes Hsize Hload. rewrite Hsize, Hload.
    unfold input_lines, output_lines. rewrite !omap_cons_none by done.
    rewrite !omap_app. cbn. by rewrite !app_nil_r.
Qed.

Lemma table_rows_row_lines (d : Directory) (e : string * string)
    (x : string * Z * string) :
  x ∈ table_rows (row_lines d e) <->
  path_exists d e.1 = true /\
  exists bytes, getsize d e.1 = Ok bytes /\ x = (e.1, format_1f (mebibytes bytes), e.2).
Proof.
  unfold row_lines. destruct (path_exists d e.1) eqn:Hex.
  - destruct (getsize d e.1) as [bytes|msg] eqn:Hsize; cbn.
    + rewrite list_elem_of_singleton. split.
      * intros ->. eauto.
      * by intros (_ & b & [= <-] & ->).
    + rewrite elem_of_nil. split; [done|]. by intros (_ & b & ? & _).
  - cbn. rewrite elem_of_nil. split; [done|]. by intros [? _].
Qed.

Lemma table_rows_full_report (d : Directory) (x : string * Z * string) :
  x ∈ table_rows (full_report d) <->
  run_outcome d = Ok true /\
  exists e, e ∈ model_info /\ x ∈ table_rows (row_lines d e).
Proof.
  unfold Verifier.full_report, Verifier.run_outcome. cbv zeta.
  destruct (glob_ext ".onnx" (entries d).*1) as [|f fs].
  - cbn. rewrite elem_of_nil. split; [done|]. by intros [? _].
  - remember (f :: fs) as files eqn:Hfiles.
    assert (Hrep : table_rows (flat_map (report_lines d) (reported d (sorted files))) = []).
    { unfold table_rows. rewrite omap_flat_map.
      induction (reported d (sorted files)) as [|g gs IH]; [done|]. cbn.
      destruct (report_readings d g) as [Hg _]. unfold table_rows in Hg.
      by rewrite Hg, IH. }
    unfold table_rows in *. rewrite omap_app, omap_cons_none by done.
    rewrite !omap_app, Hrep. unfold banner.
    rewrite !omap_cons_none by done.
    change (omap _ (@nil line)) with (@nil (string * Z * string)). cbn [app].
    destruct (reports_outcome d (sorted files)) as [[]|msg].
    + unfold table_intro, closing. rewrite !omap_app, !omap_cons_none by done.
      change (omap _ (@nil line)) with (@nil (string * Z * string)).
      cbn [app]. rewrite app_nil_r, omap_flat_map, list_elem_of_In, in_flat_map.
      setoid_rewrite <- list_elem_of_In.
      split.
      * intros (e & ? & ?). split; [done|eauto].
      * intros (_ & e & ? & ?). eauto.
    + change (omap _ (@nil line)) with (@nil (string * Z * string)).
      rewrite elem_of_nil. split; [done|]. by intros [? _].
Qed.

Lemma run_outcome_complete (d : Directory) :
  Forall (fun f => path_exists d f = true) (glob_ext ".onnx" (entries d).*1) ->
  run_outcome d = Ok (negb (bool_decide (glob_ext ".onnx" (entries d).*1 = []))).
Proof.
  intros Hall. unfold Verifier.run_outcome. cbv zeta.
  destruct (glob_ext ".onnx" (entries d).*1) as [|f fs] eqn:Hg; [done|].
  rewrite <- Hg in *.
  assert (Hs : Forall (fun f => path_exists d f = true)
                 (sorted (glob_ext ".onnx" (entries d).*1))).
  { unfold sorted. by rewrite merge_sort_Permutation. }
  destruct (reports_complete d _ Hs) as [-> _].
  rewrite bool_decide_eq_false_2; [done|]. by rewrite Hg.
Qed.

Lemma model_info_onnx (e : string * string) :
  e ∈ model_info -> endswith e.1 ".onnx" = true.
Proof.
  unfold model_info. rewrite !elem_of_cons, elem_of_nil.
  intros [->|[->|[->|[->|[->|[->|[]]]]]]]; reflexivity.
Qed.

(** C7, as amended. A row of the table is only ever printed for a file
    that exists, and it shows, in tenths, the float quotient of the file's
    byte size by 1,048,576 formatted to one decimal; below 2^53 bytes that
    is the byte size divided by 1,048,576 and rounded to one decimal.  When
    every discovered file can be stat'ed, a canonical filename gets its row
    exactly when it exists in the directory. *)
Theorem verifier_table_rows (d : Directory) (model_name description : string) :
  (model_name, description) ∈ model_info ->
  let rows := table_rows (main d).2 in
  (forall size text, (model_name, size, text) ∈ rows ->
     exists bytes,
       (model_name, Some bytes) ∈ entries d /\
       getsize d model_name = Ok bytes /\
       path_exists d model_name = true /\
       size = format_1f (mebibytes bytes) /\
       ((bytes < 9007199254740992)%N ->
        size = format_1f (Z.of_N bytes # 1048576) /\
        (Qabs (inject_Z size / 10 - (Z.of_N bytes # 1048576)) <= 1 # 20)%Q)) /\
  (Forall (fun f => path_exists d f = true) (glob_ext ".onnx" (entries d).*1) ->
   ((exists size, (model_name, size, description) ∈ rows)
      <-> path_exists d model_name = true)).
Proof.
  intros Hcanon rows. subst rows. rewrite main_report. cbn [snd]. split.
  - intros size text Hrow.
    apply table_rows_full_report in Hrow as (_ & e & _ & Hrow).
    apply table_rows_row_lines in Hrow as (Hex & bytes & Hsize & [= -> -> _]).
    exists bytes. split_and!; try done.
    + by apply stat_listed, getsize_stat.
    + intros Hlt. rewrite (mebibytes_exact bytes Hlt). split; [done|].
      apply format_1f_nearest.
  - intros Hall. split.
    + intros (size & Hrow).
      apply table_rows_full_report in Hrow as (_ & e & _ & Hrow).
      apply table_rows_row_lines in Hrow as (Hex & _ & _ & [= -> _ _]). done.
    + intros Hex. pose proof Hex as Hsize.
      apply path_exists_getsize in Hsize as (bytes & Hsize).
      exists (format_1f (mebibytes bytes)).
      apply table_rows_full_report. split.
      * rewrite (run_outcome_complete d Hall).
        rewrite bool_decide_eq_false_2; [done|]. intros Hglob.
        assert (Hg : model_name ∈ glob_ext ".onnx" (entries d).*1).
        { unfold glob_ext. apply list_elem_of_filter. split.
          - apply Is_true_true. apply (model_info_onnx _ Hcanon).
          - apply getsize_stat, stat_listed in Hsize.
            apply list_elem_of_fmap. by exists (model_name, Some bytes). }
        rewrite Hglob in Hg. by apply elem_of_nil in Hg.
      * exists (model_name, description). split; [done|].
        apply table_rows_row_lines. cbn [fst snd]. eauto.
Qed.

(** C6, as amended. For a discovered file that is there and parses, the
    report shows the first declared input when the model declares one and
    no input entry when it declares none, and one line per declared output,
    in declaration order, numbered from 1; the report of the file is part
    of what the run prints as soon as every discovered file that sorts
    before it can be stat'ed. *)
Theorem verifier_file_report (d : Directory) (file : string) (model : ModelProto)
    (bytes : N) :
  file ∈ glob_ext ".onnx" (entries d).*1 ->
  getsize d file = Ok bytes ->
  onnx_load (path_str file) = Ok model ->
  input_lines (file_report d file)
    = match graph_input model with
      | t :: _ => [(vi_name t, map dim_value (dim t))]
      | [] => []
      end /\
  output_lines (file_report d file)
    = imap (fun i t => (i + 1, vi_name t, map dim_value (dim t))) (graph_output model) /\
  length (output_lines (file_report d file)) = length (graph_output model) /\
  ((forall f, f ∈ glob_ext ".onnx" (entries d).*1 -> String.le f file ->
              path_exists d f = true) ->
   exists before after, (main d).2 = before ++ file_report d file ++ after).
Proof.
  intros Hglob Hsize Hload.
  unfold Verifier.file_report. rewrite report_file_lines. cbn [snd app].
  destruct (report_readings d file) as [_ Hread].
  destruct (Hread model bytes Hsize Hload) as [Hi Ho].
  destruct (interface_readings model) as (Hi' & Ho' & _).
  rewrite Hi, Ho, Hi', Ho'. split_and!; [done|done|by rewrite length_imap|].
  intros Hbefore.
  rewrite main_report. cbn [snd]. unfold Verifier.full_report. cbv zeta.
  assert (Hsorted : file ∈ sorted (glob_ext ".onnx" (entries d).*1)).
  { unfold sorted. by rewrite merge_sort_Permutation. }
  assert (Hstrong : StronglySorted String.le (sorted (glob_ext ".onnx" (entries d).*1))).
  { apply StronglySorted_merge_sort; apply _. }
  assert (Hin : forall f, f ∈ sorted (glob_ext ".onnx" (entries d).*1) ->
                          f ∈ glob_ext ".onnx" (entries d).*1).
  { intros f. unfold sorted. by rewrite merge_sort_Permutation. }
  apply list_elem_of_split in Hsorted as (l1 & l2 & Hsplit).
  rewrite Hsplit in Hstrong, Hin.
  assert (H1 : Forall (fun f => path_exists d f = true) l1).
  { apply Forall_forall. intros f Hf. apply Hbefore.
    - apply Hin, elem_of_app. by left.
    - apply (StronglySorted_app_1_elem_of _ _ _ _ _ Hstrong Hf). left. }
  assert (Hfile : path_exists d file = true) by (apply path_exists_getsize; eauto).
  destruct (glob_ext ".onnx" (entries d).*1) as [|f fs] eqn:Hg.
  { by apply elem_of_nil in Hglob. }
  rewrite Hsplit, (reported_split d l1 l2 file H1 Hfile), flat_map_app. cbn [flat_map].
  exists (banner ++ FoundModels (length (f :: fs)) :: flat_map (report_lines d) l1).
  eexists. rewrite <- ?(assoc_L (++)). cbn [app]. rewrite <- ?(assoc_L (++)).
  reflexivity.
Qed.

(** C9. The verifier cannot tell a missing directory from an empty one: in
    both cases it prints the banner and the no-files message, returns False
    without raising, and the process exits with status 0. *)
Theorem verifier_missing_directory :
  (forall d, verify_onnx_exports d = verify_onnx_exports (Some (entries d))) /\
  verify_onnx_exports None []
    = (Ok false, [Text "🔍 ONNX Model Verification and Analysis";
                  Text "============================================================";
                  Text "❌ No ONNX files found!"]) /\
  verify_onnx_exports (Some []) [] = verify_onnx_exports None [] /\
  (main None).1 = 0%Z /\ (main (Some [])).1 = 0%Z /\
  (main (Some [])).2 = (main None).2.
Proof.
  split_and!; reflexivity.
Qed.

End VerifierFacts.

(** *** The sample directory *)

Section VerifierSamples.
Import Py Verifier Sample.

(** C6, as stated, fails: [const.onnx] parses, declares no input, and its
    report has no input entry. *)
Lemma verifier_no_input_entry :
  onnx_load (path_str "const.onnx") = Ok no_input /\
  glob_ext ".onnx" (entries exports).*1 = ["yolov8n.onnx"; "const.onnx"; "yolo11n.onnx"] /\
  file_report onnx_load exports "const.onnx"
    = [FileName "const.onnx"; FileSize 2; Opset (VStr "Unknown");
       OutputLine 1 "output0" [1; 84; 8400]%Z; Blank] /\
  length (input_lines (file_report onnx_load exports "const.onnx")) = 0.
Proof. split_and!; by vm_compute. Qed.

Lemma verifier_file_report_witness :
  "yolo11n.onnx" ∈ glob_ext ".onnx" (entries exports).*1 /\
  getsize exports "yolo11n.onnx" = Ok 10590610%N /\
  onnx_load (path_str "yolo11n.onnx") = Ok two_heads /\
  input_lines (file_report onnx_load exports "yolo11n.onnx")
    = match graph_input two_heads with
      | t :: _ => [(vi_name t, map dim_value (dim t))]
      | [] => []
      end /\
  output_lines (file_report onnx_load exports "yolo11n.onnx")
    = imap (fun i t => (i + 1, vi_name t, map dim_value (dim t))) (graph_output two_heads) /\
  length (output_lines (file_report onnx_load exports "yolo11n.onnx"))
    = length (graph_output two_heads) /\
  ((forall f, f ∈ glob_ext ".onnx" (entries exports).*1 ->
              String.le f "yolo11n.onnx" -> path_exists exports f = true) ->
   exists before after,
     (main onnx_load exports).2
       = before ++ file_report onnx_load exports "yolo11n.onnx" ++ after).
Proof.
  assert (H : "yolo11n.onnx" ∈ glob_ext ".onnx" (entries exports).*1).
  { vm_compute. repeat constructor. }
  split; [exact H|]. split; [reflexivity|]. split; [reflexivity|].
  apply (verifier_file_report onnx_load exports "yolo11n.onnx" two_heads
           10590610%N H); reflexivity.
Defined.

(** C7, as stated, fails.  With a link named [dangling.onnx] that leads
    nowhere, the run stops at that link's size line with status 1, before
    the table: [yolo11n.onnx] exists and gets no row.  And for a file of
    2^53 + 262145 bytes the row shows 8589934592.2, where the byte size
    divided by 1,048,576 and rounded to one decimal is 8589934592.3. *)
Lemma verifier_table_not_iff :
  path_exists with_dangling "yolo11n.onnx" = true /\
  table_rows (main onnx_load with_dangling).2 = [] /\
  main onnx_load with_dangling
    = (1%Z, [Text "🔍 ONNX Model Verification and Analysis";
             Text "============================================================";
             FoundModels 2; FileName "dangling.onnx"]) /\
  table_rows (main onnx_load huge).2
    = [("yolo11n.onnx", 85899345922%Z, "Fastest inference, lowest memory")] /\
  format_1f (9007199255003137 # 1048576) = 85899345923%Z.
Proof. split_and!; by vm_compute. Qed.

Lemma verifier_table_rows_witness :
  ("yolo11n.onnx", "Fastest inference, lowest memory") ∈ model_info /\
  (forall size text,
     ("yolo11n.onnx", size, text) ∈ table_rows (main onnx_load exports).2 ->
     exists bytes,
       ("yolo11n.onnx", Some bytes) ∈ entries exports /\
       getsize exports "yolo11n.onnx" = Ok bytes /\
       path_exists exports "yolo11n.onnx" = true /\
       size = format_1f (mebibytes bytes) /\
       ((bytes < 9007199254740992)%N ->
        size = format_1f (Z.of_N bytes # 1048576) /\
        (Qabs (inject_Z size / 10 - (Z.of_N bytes # 1048576)) <= 1 # 20)%Q)) /\
  (Forall (fun f => path_exists exports f = true)
          (glob_ext ".onnx" (entries exports).*1) ->
   ((exists size, ("yolo11n.onnx", size, "Fastest inference, lowest memory")
                    ∈ table_rows (main onnx_load exports).2)
      <-> path_exists exports "yolo11n.onnx" = true)).
Proof.
  assert (H : ("yolo11n.onnx", "Fastest inference, lowest memory") ∈ model_info).
  { unfold model_info. repeat constructor. }
  split; [exact H|].
  exact (verifier_table_rows onnx_load exports
           "yolo11n.onnx" "Fastest inference, lowest memory" H).
Defined.

(** The sample run: three reports in name order, then the rows of the two
    canonical files that are present. *)
Example verifier_sample_rows :
  table_rows (main onnx_load exports).2
    = [("yolo11n.onnx", 101%Z, "Fastest inference, lowest memory");
       ("yolov8n.onnx", 120%Z, "Proven performance, good speed")] /\
  output_lines (main onnx_load exports).2
    = [(1, "output0", [1; 84; 8400]%Z);
       (1, "output0", [1; 84; 8400]%Z); (2, "output1", [1; 84; 8400]%Z)].
Proof. split; by vm_compute. Qed.

End VerifierSamples.

(** ** File name matching *)

Section Matching.
Import Py.

Lemma string_app_assoc (s1 s2 s3 : string) :
  (s1 +:+ s2) +:+ s3 = s1 +:+ (s2 +:+ s3).
Proof. induction s1 as [|a s1 IH]; [done|]. unfold String.app in *. cbn. by rewrite IH. Qed.

Lemma string_app_empty_r (s : string) : s +:+ "" = s.
Proof. induction s as [|a s IH]; [done|]. unfold String.app in *. cbn. by rewrite IH. Qed.

Lemma rev_app_spec (s1 s2 : string) :
  String.rev_app s1 s2 = String.rev s1 +:+ s2.
Proof.
  unfold String.rev. revert s2. induction s1 as [|a s1 IH]; intros s2; [done|].
  cbn. rewrite (IH (String a "")), IH, string_app_assoc. done.
Qed.

Lemma rev_app_distr (s1 s2 : string) :
  String.rev (s1 +:+ s2) = String.rev s2 +:+ String.rev s1.
Proof.
  induction s1 as [|a s1 IH].
  - by rewrite string_app_empty_r.
  - unfold String.rev in *. change (String a s1 +:+ s2) with (String a (s1 +:+ s2)).
    cbn. rewrite !(rev_app_spec _ (String a "")). fold (String.rev (s1 +:+ s2)).
    unfold String.rev. by rewrite IH, string_app_assoc.
Qed.

Lemma rev_involutive (s : string) : String.rev (String.rev s) = s.
Proof.
  induction s as [|a s IH]; [done|].
  change (String.rev (String a s)) with (String.rev_app s (String a "")).
  by rewrite rev_app_spec, rev_app_distr, IH.
Qed.

Lemma prefix_spec (p s : string) :
  String.prefix p s = true <-> exists r, s = p +:+ r.
Proof.
  revert s. induction p as [|a p IH]; intros s.
  - split; [intros _; by exists s|intros _; by destruct s].
  - destruct s as [|b s]; cbn.
    + split; [done|]. by intros [r ?].
    + destruct (Ascii.ascii_dec a b) as [->|Hne].
      * rewrite IH. split; intros [r Hr]; exists r.
        -- by rewrite Hr.
        -- by injection Hr.
      * split; [done|]. intros [r Hr]. injection Hr as ? ?. congruence.
Qed.

Lemma endswith_spec (s suffix : string) :
  endswith s suffix = true <-> exists stem, s = stem +:+ suffix.
Proof.
  unfold endswith. rewrite prefix_spec. split.
  - intros [r Hr]. exists (String.rev r).
    by rewrite <- (rev_involutive s), Hr, rev_app_distr, rev_involutive.
  - intros [stem ->]. exists (String.rev stem). by rewrite rev_app_distr.
Qed.

End Matching.

(** ** More on the converter *)

Section ConverterRun.
Import Py Converter.
Context {World Model : Type}.
Variable scandir : World -> option (list string).
Variable stat_size : World -> string -> option N.
Variable YOLO : string -> World -> result Model * World.
Variable export : Model -> ExportArgs -> World -> result string * World.
Variable Path_name : string -> string.

Local Abbreviation State := (@State World Model).
Local Abbreviation try_convert := (try_convert YOLO export).
Local Abbreviation convert_loop := (convert_loop YOLO export).
Local Abbreviation spec_attempt := (spec_attempt YOLO export).
Local Abbreviation spec_outcomes := (spec_outcomes YOLO export).
Local Abbreviation spec_world := (spec_world YOLO export).
Local Abbreviation checkpoint_files := (checkpoint_files scandir).
Local Abbreviation main := (main scandir stat_size YOLO export Path_name).
Local Abbreviation exit_status := (exit_status scandir stat_size YOLO export Path_name).
Local Abbreviation printed := (printed scandir stat_size YOLO export Path_name).
Local Abbreviation trace := (trace scandir stat_size YOLO export Path_name).
Local Abbreviation final_world := (final_world scandir stat_size YOLO export Path_name).
Local Abbreviation success_line := (success_line stat_size Path_name).
Local Abbreviation summary := (summary stat_size Path_name).

Lemma paired_app (cs1 cs2 : list (call Model)) :
  paired cs1 -> paired cs2 -> paired (cs1 ++ cs2).
Proof. induction 1; intros H2; cbn; [done|by constructor; auto..]. Qed.

(** One pass through the [try] block: its progress lines and its calls. *)
Lemma try_convert_progress (name : string) (st : State) :
  exists ls cs,
    extends st (try_convert name st).2 ls cs (spec_attempt name (world st)).2 /\
    (try_convert name st).1 = (spec_attempt name (world st)).1 /\
    paired cs /\
    converting ls = [name] /\
    converted ls = match (try_convert name st).1 with Ok _ => [name] | Raise _ => [] end /\
    onnx_files ls = match (try_convert name st).1 with Ok p => [p] | Raise _ => [] end.
Proof.
  unfold Converter.try_convert, Converter.spec_attempt, bind, print, call_YOLO,
    call_export, ret. cbn.
  destruct (YOLO (path_str name) (world st)) as [[model|e] w1] eqn:Hload; cbn.
  - destruct (export model export_settings w1) as [[p|e] w2] eqn:Hexp; cbn.
    + exists [Converting name; Converted name; OnnxFile p],
        [CallYOLO (path_str name) (Ok model); CallExport model export_settings (Ok p)].
      split; [split; cbn; by rewrite <- ?(assoc_L (++))|].
      split_and!; try done. repeat constructor.
    + exists [Converting name],
        [CallYOLO (path_str name) (Ok model); CallExport model export_settings (Raise e)].
      split; [split; cbn; by rewrite <- ?(assoc_L (++))|].
      split_and!; try done. repeat constructor.
  - exists [Converting name], [CallYOLO (path_str name) (Raise e)].
    split; [split; cbn; by rewrite <- ?(assoc_L (++))|].
    split_and!; try done. repeat constructor.
Qed.

Lemma spec_world_cons file rest (w : World) :
  spec_world (file :: rest) w = spec_world rest (spec_attempt file w).2.
Proof. done. Qed.

(** The loop as a whole: progress lines, calls and the world it leaves. *)
Lemma convert_loop_progress (files : list string) :
  forall (successful failed : list (string * string)) (st : State),
  exists ls cs,
    let os := spec_outcomes files (world st) in
    let res := convert_loop files successful failed st in
    extends st res.2 ls cs (spec_world files (world st)) /\
    res.1.1 = successful ++ successes os /\
    res.1.2 = failed ++ failures os /\
    Forall loop_line ls /\
    paired cs /\
    converting ls = files /\
    converted ls = (successes os).*1 /\
    onnx_files ls = (successes os).*2.
Proof.
  induction files as [|file rest IH]; intros successful failed st.
  - exists [], []. cbn. rewrite !app_nil_r. split_and!; try done.
    + split; by rewrite ?app_nil_r.
    + constructor.
  - destruct (try_convert_progress file st)
      as (ls1 & cs1 & E1 & Hr & Hp1 & Hc1 & Hd1 & Ho1).
    destruct (try_convert file st) as [r st1] eqn:Htry.
    cbn [fst snd] in *.
    destruct r as [p|e].
    + destruct (IH (successful ++ [(file, p)]) failed st1)
        as (ls2 & cs2 & E2 & Hs & Hf & Hl2 & Hp2 & Hc2 & Hd2 & Ho2).
      exists (ls1 ++ ls2), (cs1 ++ cs2). cbv zeta.
      rewrite convert_loop_cons, Htry, spec_outcomes_cons, spec_world_cons, <- Hr.
      rewrite <- (ext_world _ _ _ _ _ E1).
      split; [by eapply extends_trans|].
      rewrite Hs, Hf. unfold successes, failures, converting, converted, onnx_files in *.
      cbn. rewrite !omap_app, Hc1, Hc2, Hd1, Hd2, Ho1, Ho2.
      split_and!; try done.
      * by rewrite <- (assoc_L (++)).
      * apply Forall_app. split; [|done].
        destruct (try_convert_extends YOLO export file st)
          as (ls1' & cs1' & E1' & _ & Hl1 & _).
        rewrite Htry in E1'. cbn [snd] in E1'.
        pose proof (ext_stdout _ _ _ _ _ E1) as A.
        rewrite (ext_stdout _ _ _ _ _ E1') in A.
        by apply app_inv_head in A as <-.
      * by apply paired_app.
    + pose proof (print_extends (ConvertFailed file e) st1) as Ep.
      destruct (IH successful (failed ++ [(file, e)]) (print (ConvertFailed file e) st1).2)
        as (ls2 & cs2 & E2 & Hs & Hf & Hl2 & Hp2 & Hc2 & Hd2 & Ho2).
      pose proof (extends_trans _ _ _ _ _ _ _ _ _ E1 Ep) as E1'.
      rewrite app_nil_r in E1'.
      exists ((ls1 ++ [ConvertFailed file e]) ++ ls2), (cs1 ++ cs2). cbv zeta.
      rewrite convert_loop_cons, Htry, spec_outcomes_cons, spec_world_cons, <- Hr.
      rewrite <- (ext_world _ _ _ _ _ E1).
      split; [by eapply extends_trans|].
      rewrite Hs, Hf. unfold successes, failures, converting, converted, onnx_files in *.
      cbn. rewrite !omap_app, Hc1, Hc2, Hd1, Hd2, Ho1, Ho2.
      split_and!; try done.
      * by rewrite <- (assoc_L (++)).
      * apply Forall_app. split; [|done]. apply Forall_app. split; [|by repeat constructor].
        destruct (try_convert_extends YOLO export file st)
          as (ls1' & cs1' & E1'' & _ & Hl1 & _).
        rewrite Htry in E1''. cbn [snd] in E1''.
        pose proof (ext_stdout _ _ _ _ _ E1) as A.
        rewrite (ext_stdout _ _ _ _ _ E1'') in A.
        by apply app_inv_head in A as <-.
      * by apply paired_app.
Qed.


(** A run that finds checkpoints, with the loop made explicit. *)
Lemma main_run (w : World) :
  let files := checkpoint_files w in
  let os := spec_outcomes files w in
  files <> [] ->
  exists ls cs,
    main w =
      (if bool_decide (failures os = []) then 0%Z else 1%Z,
       {| world := spec_world files w;
          stdout := Found (length files) :: map FoundFile files ++ Starting :: ls
                    ++ summary (spec_world files w) (successes os) (failures os);
          calls := cs |}) /\
    Forall loop_line ls /\
    paired cs /\
    converting ls = files /\
    converted ls = (successes os).*1 /\
    onnx_files ls = (successes os).*2.
Proof.
  intros files os Hne. subst os files. unfold Converter.checkpoint_files in *.
  unfold Converter.main, convert_checkpoints_to_onnx, bind at 1, get_world.
  cbn [initial world].
  destruct (scandir w) as [entries|] eqn:Hscan; [|done].
  cbn [from_option id] in *.
  revert Hne. destruct (glob_ext ".pt" entries) as [|f fs]; intros Hne; [congruence|].
  cbv iota. remember (f :: fs) as files eqn:Hfiles. clear Hfiles Hne.
  unfold bind at 1, print at 1. cbv beta iota. cbn [initial world stdout calls app].
  unfold bind at 1. rewrite for_each_print. cbv beta iota. cbn [world stdout calls].
  unfold bind at 1, print at 1. cbv beta iota. cbn [world stdout calls].
  unfold bind at 1.
  match goal with |- context [convert_loop files [] [] ?st] =>
    destruct (convert_loop_progress files [] [] st)
      as (ls & cs & E & Hs & Hf & Hl & Hp & Hc & Hd & Ho);
    destruct (convert_loop files [] [] st) as [[successful failed] st'] eqn:Hloop
  end.
  cbn [fst snd world stdout calls app] in *. subst successful failed.
  apply extends_eq in E. subst st'. cbn [world stdout calls app].
  exists ls, cs. split; [|done].
  set (S := successes _). set (F := failures _).
  unfold bind, print, ret. cbn [world stdout calls].
  destruct S as [|s S'] eqn:HS; destruct F as [|f' F'] eqn:HF;
    rewrite ?for_each_success_rows, ?for_each_failed_rows;
    cbn [world stdout calls fst snd length Nat.eqb bool_decide];
    unfold Converter.summary; f_equal; try done; f_equal;
    rewrite <- ?(assoc_L (++)); cbn; by rewrite ?app_nil_r, <- ?(assoc_L (++)).
Qed.

(** *** Reading the rest of the report *)

Lemma report_reading {A} (f : line -> option A) (n : nat) (files : list string)
    (ls sm : list line) :
  omap f (Found n :: map FoundFile files ++ Starting :: ls ++ sm)
  = omap f [Found n] ++ omap f (map FoundFile files) ++ omap f [Starting]
    ++ omap f ls ++ omap f sm.
Proof.
  change (Found n :: map FoundFile files ++ Starting :: ls ++ sm)
    with ([Found n] ++ map FoundFile files ++ [Starting] ++ ls ++ sm).
  by rewrite !omap_app.
Qed.

Lemma summary_reading {A} (f : line -> option A) (w : World)
    (successful failed : list (string * string)) :
  f SummaryHeader = None -> (forall n, f (SuccessfulCount n) = None) ->
  (forall n, f (FailedCount n) = None) -> f SuccessHeader = None ->
  f FailedHeader = None ->
  omap f (summary w successful failed)
  = omap f (map (success_line w) successful) ++ omap f (map failed_line failed).
Proof.
  intros H1 H2 H3 H4 H5. unfold Converter.summary.
  rewrite !omap_app, !block_reading by done. cbn. by rewrite H1, H2, H3.
Qed.

Lemma omap_map_none {A B C} (f : B -> option C) (g : A -> B) (l : list A) :
  (forall x, f (g x) = None) -> omap f (map g l) = [].
Proof. intros H. induction l as [|x l IH]; [done|]. cbn. by rewrite H. Qed.

Lemma omap_map_some {A B C} (f : B -> option C) (g : A -> B) (h : A -> C)
    (l : list A) :
  (forall x, f (g x) = Some (h x)) -> omap f (map g l) = map h l.
Proof. intros H. induction l as [|x l IH]; [done|]. cbn. by rewrite H, IH. Qed.

Lemma loop_lines_plain (ls : list line) :
  Forall loop_line ls ->
  found_counts ls = [] /\ found_files ls = [] /\ success_details ls = [].
Proof.
  induction 1 as [|l ls Hl _ (IH1 & IH2 & IH3)]; [done|].
  unfold found_counts, found_files, success_details in *.
  destruct l; try done; cbn; by rewrite ?IH1, ?IH2, ?IH3.
Qed.

(** *** No checkpoint in the directory *)

(** X1. When the directory exists but holds no name ending in [.pt], the
    run prints the no-checkpoints line and stops: exit status 1, no load
    and no export call, and the world is left as it was. *)
Theorem converter_nothing_found (w : World) (entries : list string) :
  scandir w = Some entries ->
  glob_ext ".pt" entries = [] ->
  exit_status w = 1%Z /\
  printed w = [NoCheckpoints "checkpoints"] /\
  trace w = [] /\
  final_world w = w.
Proof.
  intros Hscan Hglob. unfold Converter.exit_status, Converter.printed,
    Converter.trace, Converter.final_world.
  by rewrite (main_nothing_found scandir stat_size YOLO export Path_name w entries).
Qed.

(** *** The discovery listing *)

(** X2. The names listed under the "Found" line are the discovered files,
    in scan order, and when something is found the announced number is
    their count. *)
Theorem converter_discovery_listing (w : World) :
  found_files (printed w) = checkpoint_files w /\
  found_counts (printed w)
    = match checkpoint_files w with
      | [] => []
      | _ :: _ => [length (checkpoint_files w)]
      end.
Proof.
  destruct (decide (checkpoint_files w = [])) as [Hnone|Hsome].
  - rewrite Hnone. unfold Converter.checkpoint_files, Converter.printed in *.
    destruct (scandir w) as [entries|] eqn:Hscan; cbn [from_option id] in Hnone.
    + by rewrite (main_nothing_found scandir stat_size YOLO export Path_name w entries).
    + by rewrite (main_missing scandir stat_size YOLO export Path_name w).
  - destruct (main_run w Hsome) as (ls & cs & Hmain & Hl & _).
    unfold Converter.printed. rewrite Hmain. cbn [snd stdout].
    destruct (loop_lines_plain ls Hl) as (L1 & L2 & _).
    unfold found_files, found_counts in *.
    rewrite !report_reading, !summary_reading, L1, L2 by done.
    rewrite (omap_map_some _ FoundFile id) by done.
    rewrite (omap_map_none _ FoundFile) by done.
    rewrite !(omap_map_none _ (success_line _)) by done.
    rewrite !(omap_map_none _ failed_line) by done.
    cbn. rewrite app_nil_r, map_id.
    split; [done|]. by destruct (checkpoint_files w).
Qed.

(** *** Progress lines *)

(** X3. Inside the loop every discovered file gets its "Converting" line,
    in order; the "Successfully converted" lines name exactly the files
    that the summary lists as converted, and the "ONNX file" lines show
    exactly the paths the export calls returned. *)
Theorem converter_progress_lines (w : World) :
  converting (printed w) = checkpoint_files w /\
  converted (printed w) = success_rows (printed w) /\
  onnx_files (printed w) = exported (trace w).
Proof.
  destruct (decide (checkpoint_files w = [])) as [Hnone|Hsome].
  - destruct (early_readings scandir stat_size YOLO export Path_name w Hnone)
      as (_ & Ht & _ & Hs & _).
    rewrite Hnone, Ht, Hs. unfold Converter.checkpoint_files, Converter.printed in *.
    destruct (scandir w) as [entries|] eqn:Hscan; cbn [from_option id] in Hnone.
    + by rewrite (main_nothing_found scandir stat_size YOLO export Path_name w entries).
    + by rewrite (main_missing scandir stat_size YOLO export Path_name w).
  - destruct (batch_readings scandir stat_size YOLO export Path_name w Hsome)
      as (_ & Hs & _ & _ & _ & _ & _ & _ & He).
    rewrite Hs, He.
    destruct (main_run w Hsome) as (ls & cs & Hmain & Hl & _ & Hc & Hd & Ho).
    unfold Converter.printed. rewrite Hmain. cbn [snd stdout].
    unfold converting, converted, onnx_files in *.
    rewrite !report_reading, !summary_reading, Hc, Hd, Ho by done.
    rewrite !(omap_map_none _ FoundFile) by done.
    rewrite !(omap_map_none _ (success_line _)) by done.
    rewrite !(omap_map_none _ failed_line) by done.
    cbn. by rewrite !app_nil_r.
Qed.

(** *** Shape of the call trace *)

(** X4. The export capability is only ever called on the model that the
    load just before it returned, once per load that returned; a load that
    raised is followed by the next file's load. *)
Theorem converter_trace_paired (w : World) : paired (trace w).
Proof.
  destruct (decide (checkpoint_files w = [])) as [Hnone|Hsome].
  - destruct (early_readings scandir stat_size YOLO export Path_name w Hnone)
      as (_ & -> & _). constructor.
  - destruct (main_run w Hsome) as (ls & cs & Hmain & _ & Hp & _).
    unfold Converter.trace. by rewrite Hmain.
Qed.

(** *** Effects on the world *)

(** X5. The script changes the world only through the load and export
    calls of the batch: the world after the run is the one those calls
    leave, and a loader and an exporter that write nothing leave it as it
    was. *)
Theorem converter_world_effects (w : World) :
  final_world w = spec_world (checkpoint_files w) w /\
  ((forall path w0, (YOLO path w0).2 = w0) ->
   (forall model args w0, (export model args w0).2 = w0) ->
   final_world w = w).
Proof.
  assert (H : final_world w = spec_world (checkpoint_files w) w).
  { destruct (decide (checkpoint_files w = [])) as [Hnone|Hsome].
    - destruct (early_readings scandir stat_size YOLO export Path_name w Hnone)
        as (_ & _ & -> & _). by rewrite Hnone.
    - destruct (main_run w Hsome) as (ls & cs & Hmain & _).
      unfold Converter.final_world. by rewrite Hmain. }
  split; [done|]. intros Hload Hexport. rewrite H. clear H.
  generalize (checkpoint_files w). intros files. revert w.
  induction files as [|f fs IH]; intros w; [done|].
  rewrite spec_world_cons.
  assert (Hstep : (spec_attempt f w).2 = w).
  { unfold Converter.spec_attempt. specialize (Hload (path_str f) w).
    destruct (YOLO (path_str f) w) as [[m|e] w1]; cbn in Hload; subst w1; [|done].
    apply Hexport. }
  rewrite Hstep. apply IH.
Qed.


(** *** Sizes in the summary *)

(** X6. Each converted model is listed with the final component of the
    path its export returned; the size is shown exactly when a file is at
    that path once all conversions are done, and it is the float quotient
    of that file's byte size by 1,048,576, formatted to one decimal (below
    2^53 bytes: the byte size divided by 1,048,576, to one decimal). *)
Theorem converter_summary_sizes (w : World) :
  success_details (printed w)
  = map (fun row =>
           (row.1, Path_name row.2,
            (fun bytes => format_1f (mebibytes bytes))
              <$> stat_size (final_world w) row.2))
        (successes (spec_outcomes (checkpoint_files w) w)) /\
  (forall original onnx_name size,
     (original, onnx_name, Some size) ∈ success_details (printed w) ->
     exists onnx_path bytes,
       (original, onnx_path) ∈ successes (spec_outcomes (checkpoint_files w) w) /\
       onnx_name = Path_name onnx_path /\
       stat_size (final_world w) onnx_path = Some bytes /\
       size = format_1f (mebibytes bytes) /\
       ((bytes < 9007199254740992)%N ->
        size = format_1f (Z.of_N bytes # 1048576) /\
        (Qabs (inject_Z size / 10 - (Z.of_N bytes # 1048576)) <= 1 # 20)%Q)).
Proof.
  assert (H : success_details (printed w)
    = map (fun row =>
             (row.1, Path_name row.2,
              (fun bytes => format_1f (mebibytes bytes))
                <$> stat_size (final_world w) row.2))
          (successes (spec_outcomes (checkpoint_files w) w))).
  { destruct (decide (checkpoint_files w = [])) as [Hnone|Hsome].
    - rewrite Hnone. unfold Converter.checkpoint_files, Converter.printed in *.
      destruct (scandir w) as [entries|] eqn:Hscan; cbn [from_option id] in Hnone.
      + by rewrite (main_nothing_found scandir stat_size YOLO export Path_name w entries).
      + by rewrite (main_missing scandir stat_size YOLO export Path_name w).
    - destruct (main_run w Hsome) as (ls & cs & Hmain & Hl & _).
      unfold Converter.printed, Converter.final_world. rewrite Hmain.
      cbn [snd stdout world].
      destruct (loop_lines_plain ls Hl) as (_ & _ & L3).
      unfold success_details in *.
      rewrite report_reading, summary_reading, L3 by done.
      rewrite (omap_map_none _ FoundFile) by done.
      rewrite (omap_map_none _ failed_line) by done.
      cbn [omap app]. rewrite app_nil_r.
      change (omap _ [Found _]) with (@nil (string * string * option Z)).
      change (omap _ [Starting]) with (@nil (string * string * option Z)).
      cbn [app]. apply omap_map_some. intros [o p].
      unfold Converter.success_line. cbn [fst snd].
      by destruct (stat_size _ p). }
  split; [done|]. rewrite H. intros original onnx_name size Hin.
  apply list_elem_of_fmap in Hin as ([o p] & Heq & Hin). cbn [fst snd] in Heq.
  destruct (stat_size (final_world w) p) as [bytes|] eqn:Hstat; [|done].
  injection Heq as -> -> ->. exists p, bytes. split_and!; try done.
  intros Hlt. rewrite (mebibytes_exact bytes Hlt). split; [done|].
  apply format_1f_nearest.
Qed.

(** *** Which files are discovered *)


End ConverterRun.

Section ConverterRunSamples.
Import Py Converter Sample.

Lemma converter_nothing_found_witness :
  scandir notes_only = Some ["notes.txt"; "model.onnx"] /\
  glob_ext ".pt" ["notes.txt"; "model.onnx"] = [] /\
  exit_status scandir stat_size YOLO export Path_name notes_only = 1%Z /\
  printed scandir stat_size YOLO export Path_name notes_only
    = [NoCheckpoints "checkpoints"] /\
  trace scandir stat_size YOLO export Path_name notes_only = [] /\
  final_world scandir stat_size YOLO export Path_name notes_only = notes_only.
Proof.
  split; [reflexivity|]. split; [reflexivity|].
  apply (converter_nothing_found scandir stat_size YOLO export Path_name
           notes_only ["notes.txt"; "model.onnx"]); reflexivity.
Defined.

(** With the exporter that writes nothing, a run over the two checkpoints
    leaves the disk as it found it. *)
Lemma converter_world_effects_witness :
  final_world scandir stat_size YOLO export_failing Path_name healthy = healthy.
Proof.
  apply (converter_world_effects scandir stat_size YOLO export_failing Path_name healthy).
  - intros path w0. unfold YOLO. by destruct (bool_decide _).
  - reflexivity.
Defined.

End ConverterRunSamples.

(** ** More on the verifier *)

Section VerifierRun.
Import Py Verifier.
Variable onnx_load : string -> result ModelProto.

Local Abbreviation analyze_onnx_model := (analyze_onnx_model onnx_load).
Local Abbreviation report_file := (report_file onnx_load).
Local Abbreviation file_report := (file_report onnx_load).
Local Abbreviation verify_onnx_exports := (verify_onnx_exports onnx_load).
Local Abbreviation main := (main onnx_load).
Local Abbreviation report_lines := (report_lines onnx_load).
Local Abbreviation full_report := (full_report onnx_load).

(** *** How the run ends *)

Lemma run_outcome_cases (d : Directory) :
  let discovered := glob_ext ".onnx" (entries d).*1 in
  (Forall (fun f => path_exists d f = true) discovered /\
   run_outcome d = Ok (negb (bool_decide (discovered = [])))) \/
  (~ Forall (fun f => path_exists d f = true) discovered /\
   exists msg, run_outcome d = Raise msg).
Proof.
  intros discovered.
  destruct (decide (Forall (fun f => path_exists d f = true) discovered))
    as [Hall|Hnot].
  - left. split; [done|]. by apply run_outcome_complete.
  - right. split; [done|]. unfold Verifier.run_outcome. cbv zeta. fold discovered.
    destruct discovered as [|f fs] eqn:Hd; [by destruct Hnot|]. rewrite <- Hd in *.
    destruct (reports_outcome d (sorted discovered)) as [[]|msg] eqn:Hout; [|eauto].
    destruct Hnot. apply reports_complete_inv in Hout.
    unfold sorted in Hout. by rewrite merge_sort_Permutation in Hout.
Qed.

(** X8. The verifier ends in one of three ways.  With no name ending in
    [.onnx] in the directory it prints the banner and the no-files message
    and returns False; when every discovered file can be stat'ed it runs
    to the end and returns True, whatever the parser does; in both cases
    the exit status is 0.  Otherwise, and only then, the size lookup of the
    per-file loop raises and the exit status is 1. *)
Theorem verifier_exit_status (d : Directory) :
  let discovered := glob_ext ".onnx" (entries d).*1 in
  let readable := Forall (fun f => path_exists d f = true) discovered in
  ((main d).1 = 0%Z <-> readable) /\
  ((main d).1 = 1%Z <-> ~ readable) /\
  (verify_onnx_exports d [] = (Ok false, (main d).2) <-> discovered = []) /\
  (verify_onnx_exports d [] = (Ok true, (main d).2) <-> discovered <> [] /\ readable) /\
  (discovered <> [] <->
     exists file stem, file ∈ (entries d).*1 /\ file = stem +:+ ".onnx") /\
  (discovered = [] ->
     (main d).2 = [Text "🔍 ONNX Model Verification and Analysis";
                   Text "============================================================";
                   Text "❌ No ONNX files found!"]).
Proof.
  intros discovered readable. subst discovered readable.
  rewrite main_report, verify_run. cbn [fst snd].
  assert (Hchar : glob_ext ".onnx" (entries d).*1 <> [] <->
    exists file stem, file ∈ (entries d).*1 /\ file = stem +:+ ".onnx").
  { split.
    - intros Hne. destruct (glob_ext ".onnx" (entries d).*1) as [|f fs] eqn:Hg; [done|].
      assert (Hf : f ∈ glob_ext ".onnx" (entries d).*1) by (rewrite Hg; left).
      unfold glob_ext in Hf. apply list_elem_of_filter in Hf as [Hends Hin].
      apply Is_true_true, endswith_spec in Hends as [stem ->]. eauto.
    - intros (file & stem & Hin & ->) Hg.
      assert (Hf : stem +:+ ".onnx" ∈ glob_ext ".onnx" (entries d).*1).
      { unfold glob_ext. apply list_elem_of_filter. split; [|done].
        apply Is_true_true, endswith_spec. eauto. }
      rewrite Hg in Hf. by apply elem_of_nil in Hf. }
  assert (Hnone : glob_ext ".onnx" (entries d).*1 = [] ->
    full_report d = [Text "🔍 ONNX Model Verification and Analysis";
                     Text "============================================================";
                     Text "❌ No ONNX files found!"]).
  { intros Hg. unfold Verifier.full_report. cbv zeta. by rewrite Hg. }
  destruct (run_outcome_cases d) as [[Hall Hout]|[Hnot [msg Hout]]];
    cbv zeta in Hout; rewrite Hout.
  - case_bool_decide as Hg; cbn [negb]; split_and!; try done; try tauto.
    all: try (split; [congruence|tauto]).
  - split_and!; try done.
    + split; [done|]. intros Hg. exfalso. apply Hnot. rewrite Hg. constructor.
    + split; [done|]. intros [_ Hall]. exfalso. exact (Hnot Hall).
Qed.

(** *** Order of the reports *)

Lemma omap_cons_some {A B} (f : A -> option B) (x : A) (y : B) (l : list A) :
  f x = Some y -> omap f (x :: l) = y :: omap f l.
Proof. intros H. cbn. by rewrite H. Qed.

Lemma file_names_report_lines (d : Directory) (file : string) :
  file_names (report_lines d file) = [file] /\
  found_models (report_lines d file) = [].
Proof.
  unfold Verifier.report_lines, file_names, found_models.
  destruct (getsize d file); [|by split].
  rewrite (omap_cons_some _ _ file) by done.
  rewrite !omap_cons_none, !omap_app by done.
  destruct (onnx_load (path_str file)) as [model|e]; [|by split].
  unfold interface_lines. rewrite !omap_cons_none, !omap_app by done.
  rewrite !omap_imap_none by done.
  split; cbn; rewrite ?app_nil_r; by destruct (graph_input model).
Qed.

Lemma file_names_reports (d : Directory) (files : list string) :
  file_names (flat_map (report_lines d) files) = files /\
  found_models (flat_map (report_lines d) files) = [].
Proof.
  unfold file_names, found_models. rewrite !omap_flat_map.
  induction files as [|f fs [IH1 IH2]]; [done|]. cbn.
  destruct (file_names_report_lines d f) as [H1 H2].
  unfold file_names, found_models in H1, H2. by rewrite H1, H2, IH1, IH2.
Qed.

Lemma file_names_rows (d : Directory) (es : list (string * string)) :
  file_names (flat_map (row_lines d) es) = [] /\
  found_models (flat_map (row_lines d) es) = [].
Proof.
  unfold file_names, found_models. rewrite !omap_flat_map.
  induction es as [|e es [IH1 IH2]]; [done|]. cbn. rewrite IH1, IH2.
  unfold row_lines. destruct (path_exists d e.1); [|done].
  by destruct (getsize d e.1).
Qed.

(** X9. The per-file reports come in ascending order of file name: the
    files whose report is begun are an initial stretch of the sorted list
    of discovered [.onnx] files, ending at the first one that cannot be
    stat'ed, and all of them when every one can; the number announced
    before them is the number of discovered files. *)
Theorem verifier_reports_sorted (d : Directory) :
  let discovered := glob_ext ".onnx" (entries d).*1 in
  file_names (main d).2 = reported d (sorted discovered) /\
  file_names (main d).2 `prefix_of` sorted discovered /\
  (Forall (fun f => path_exists d f = true) discovered ->
   file_names (main d).2 = sorted discovered /\
   file_names (main d).2 ≡ₚ discovered) /\
  StronglySorted String.le (file_names (main d).2) /\
  found_models (main d).2
    = match discovered with [] => [] | _ :: _ => [length discovered] end.
Proof.
  intros discovered. subst discovered.
  assert (H : file_names (main d).2 = reported d (sorted (glob_ext ".onnx" (entries d).*1)) /\
              found_models (main d).2
              = match glob_ext ".onnx" (entries d).*1 with
                | [] => []
                | _ :: _ => [length (glob_ext ".onnx" (entries d).*1)]
                end).
  { rewrite main_report. cbn [snd]. unfold Verifier.full_report. cbv zeta.
    destruct (glob_ext ".onnx" (entries d).*1) as [|f fs]; [by split|].
    cbv iota. remember (f :: fs) as files eqn:Hfiles. clear Hfiles.
    destruct (file_names_reports d (reported d (sorted files))) as [R1 R2].
    destruct (file_names_rows d model_info) as [T1 T2].
    assert (Htail : forall (A : Type) (f : line -> option A),
      (forall s, f (Text s) = None) -> omap f (flat_map (row_lines d) model_info) = [] ->
      omap f (match reports_outcome d (sorted files) with
              | Ok _ => table_intro ++ flat_map (row_lines d) model_info ++ closing
              | Raise _ => []
              end) = []).
    { intros A g Hg Hrows. destruct (reports_outcome d (sorted files)); [|done].
      unfold table_intro, closing. rewrite !omap_app, Hrows.
      by rewrite !(omap_cons_none _ (Text _)) by done. }
    unfold file_names, found_models, banner in *.
    split.
    - rewrite !omap_app. rewrite !(omap_cons_none _ (Text _)) by done.
      rewrite (omap_cons_none _ (FoundModels _)) by done.
      rewrite !omap_app, R1, Htail by done.
      cbn. by rewrite ?app_nil_r.
    - rewrite !omap_app. rewrite !(omap_cons_none _ (Text _)) by done.
      rewrite (omap_cons_some _ (FoundModels _) (length files)) by done.
      rewrite !omap_app, R2, Htail by done.
      cbn. by rewrite ?app_nil_r. }
  destruct H as [H1 H2]. rewrite H1.
  pose proof (reported_prefix d (sorted (glob_ext ".onnx" (entries d).*1))) as Hpre.
  split_and!; try done.
  - intros Hall.
    assert (Hs : Forall (fun f => path_exists d f = true)
                   (sorted (glob_ext ".onnx" (entries d).*1))).
    { unfold sorted. by rewrite merge_sort_Permutation. }
    destruct (reports_complete d _ Hs) as [_ ->]. split; [done|].
    apply merge_sort_Permutation.
  - destruct Hpre as [k Hk].
    assert (Hstrong : StronglySorted String.le (sorted (glob_ext ".onnx" (entries d).*1))).
    { apply StronglySorted_merge_sort; apply _. }
    rewrite Hk in Hstrong. by apply StronglySorted_app_1_l in Hstrong.
Qed.

(** *** A file that does not parse *)

(** X10. For a discovered file that is there and on which the parser
    raises, the report is the file's name, its size in mebibytes to one
    decimal, the exception message and the closing empty line; no opset,
    input or output line is printed for it.  For a discovered file that
    cannot be stat'ed the report stops after the name. *)
Theorem verifier_parse_failure (d : Directory) (file msg : string) (bytes : N) :
  file ∈ glob_ext ".onnx" (entries d).*1 ->
  getsize d file = Ok bytes ->
  onnx_load (path_str file) = Raise msg ->
  (file, Some bytes) ∈ entries d /\
  file_report d file
    = [FileName file; FileSize (format_1f (mebibytes bytes));
       AnalysisError (VStr msg); Blank] /\
  ((bytes < 9007199254740992)%N ->
   mebibytes bytes = (Z.of_N bytes # 1048576)) /\
  (forall other, stat d other = None -> file_report d other = [FileName other]).
Proof.
  intros Hglob Hsize Hload. split_and!.
  - by apply stat_listed, getsize_stat.
  - unfold Verifier.file_report. rewrite (report_file_lines onnx_load).
    cbn [snd app]. unfold Verifier.report_lines. by rewrite Hsize, Hload.
  - apply mebibytes_exact.
  - intros other Hstat. unfold Verifier.file_report.
    rewrite (report_file_lines onnx_load). cbn [snd app].
    unfold Verifier.report_lines, getsize. by rewrite Hstat.
Qed.

(** X11. For a discovered file that parses, the report has one opset line:
    the version of the first entry of the model's opset list, or the text
    Unknown when that list is empty.  (The line is missing only for a name
    that cannot be stat'ed, whose report stops before the analysis.) *)
Theorem verifier_opset_line (d : Directory) (file : string) (model : ModelProto) :
  file ∈ glob_ext ".onnx" (entries d).*1 ->
  onnx_load (path_str file) = Ok model ->
  opset_lines (file_report d file)
    = match getsize d file with
      | Ok _ =>
          [match opset_import model with
           | first :: _ => VInt (version first)
           | [] => VStr "Unknown"
           end]
      | Raise _ => []
      end.
Proof.
  intros Hglob Hload.
  unfold Verifier.file_report. rewrite (report_file_lines onnx_load).
  cbn [snd app]. unfold Verifier.report_lines.
  destruct (getsize d file) as [bytes|e]; [|done]. rewrite Hload.
  unfold opset_lines, interface_lines.
  rewrite !omap_cons_none by done. rewrite omap_app.
  erewrite (omap_cons_some _ (Opset _)) by done.
  rewrite omap_app, omap_imap_none by done.
  destruct (graph_input model); by cbn.
Qed.

(** *** The reference table *)

Lemma table_rows_of_full_report (d : Directory) :
  table_rows (full_report d)
  = match run_outcome d with
    | Ok true => flat_map (fun e => table_rows (row_lines d e)) model_info
    | _ => []
    end.
Proof.
  unfold Verifier.full_report, Verifier.run_outcome. cbv zeta.
  destruct (glob_ext ".onnx" (entries d).*1) as [|f fs]; [done|].
  remember (f :: fs) as files eqn:Hfiles.
  assert (Hrep : table_rows (flat_map (report_lines d) (reported d (sorted files))) = []).
  { unfold table_rows. rewrite omap_flat_map.
    induction (reported d (sorted files)) as [|g gs IH]; [done|]. cbn.
    destruct (report_readings onnx_load d g) as [Hg _]. unfold table_rows in Hg.
    by rewrite Hg, IH. }
  unfold table_rows in *. rewrite omap_app, omap_cons_none by done.
  rewrite !omap_app, Hrep. unfold banner.
  rewrite !omap_cons_none by done.
  change (omap _ (@nil line)) with (@nil (string * Z * string)). cbn [app].
  destruct (reports_outcome d (sorted files)) as [[]|msg]; [|done].
  unfold table_intro, closing. rewrite !omap_app, !omap_cons_none by done.
  change (omap _ (@nil line)) with (@nil (string * Z * string)). cbn [app].
  by rewrite app_nil_r, omap_flat_map.
Qed.

(** X12. The table shows rows for canonical names only, each with the
    description the table gives it, at most one per entry and in the order
    of the table, however many other [.onnx] files the directory holds. *)
Theorem verifier_table_canonical (d : Directory) :
  sublist (map (fun row => (row.1.1, row.2)) (table_rows (main d).2)) model_info.
Proof.
  rewrite main_report. cbn [snd]. rewrite table_rows_of_full_report.
  destruct (run_outcome d) as [[|]|msg]; [|apply sublist_nil_l..].
  induction model_info as [|[n desc] es IH]; [done|].
  cbn [flat_map]. rewrite map_app.
  unfold row_lines at 1. cbn [fst snd].
  destruct (path_exists d n); [|by apply sublist_cons].
  destruct (getsize d n); cbn; [by apply sublist_skip|by apply sublist_cons].
Qed.

End VerifierRun.

Section VerifierRunSamples.
Import Py Verifier Sample.

Lemma verifier_parse_failure_witness :
  "yolov8n.onnx" ∈ glob_ext ".onnx" (entries exports).*1 /\
  getsize exports "yolov8n.onnx" = Ok 12582912%N /\
  onnx_load (path_str "yolov8n.onnx") = Raise "Error parsing message" /\
  ("yolov8n.onnx", Some 12582912%N) ∈ entries exports /\
  file_report onnx_load exports "yolov8n.onnx"
    = [FileName "yolov8n.onnx"; FileSize (format_1f (mebibytes 12582912));
       AnalysisError (VStr "Error parsing message"); Blank] /\
  ((12582912 < 9007199254740992)%N ->
   mebibytes 12582912 = (Z.of_N 12582912 # 1048576)) /\
  (forall other, stat exports other = None ->
                 file_report onnx_load exports other = [FileName other]).
Proof.
  assert (H : "yolov8n.onnx" ∈ glob_ext ".onnx" (entries exports).*1).
  { vm_compute. repeat constructor. }
  split; [exact H|]. split; [reflexivity|]. split; [reflexivity|].
  apply (verifier_parse_failure onnx_load exports "yolov8n.onnx"
           "Error parsing message" 12582912%N H); reflexivity.
Defined.

(** A run that stops at a link leading nowhere: the name of the link is
    the last line printed and the exit status is 1. *)
Example verifier_dangling_link :
  Verifier.main onnx_load with_dangling
  = (1%Z, [Text "🔍 ONNX Model Verification and Analysis";
           Text "============================================================";
           FoundModels 2; FileName "dangling.onnx"]).
Proof. by vm_compute. Qed.

Lemma verifier_opset_line_witness :
  "const.onnx" ∈ glob_ext ".onnx" (entries exports).*1 /\
  onnx_load (path_str "const.onnx") = Ok no_input /\
  opset_lines (file_report onnx_load exports "const.onnx") = [VStr "Unknown"].
Proof.
  assert (H : "const.onnx" ∈ glob_ext ".onnx" (entries exports).*1).
  { vm_compute. repeat constructor. }
  split; [exact H|]. split; [reflexivity|].
  apply (verifier_opset_line onnx_load exports "const.onnx" no_input H).
  reflexivity.
Defined.

(** A directory with checkpoints only: nothing to verify. *)
Example verifier_checkpoints_only :
  Verifier.main onnx_load checkpoints_only
  = (0%Z, [Text "🔍 ONNX Model Verification and Analysis";
           Text "============================================================";
           Text "❌ No ONNX files found!"]).
Proof. reflexivity. Qed.

End VerifierRunSamples.

(** ** Sizes as displayed *)

Section Sizes.
Import Py.

Lemma format_1f_monotone (n1 n2 : Z) :
  (n1 <= n2)%Z -> (format_1f (n1 # 1048576) <= format_1f (n2 # 1048576))%Z.
Proof.
  intros Hle. unfold format_1f. cbn [Qnum Qden].
  set (m1 := (10 * n1)%Z). set (m2 := (10 * n2)%Z).
  assert (Hn : (m1 <= m2)%Z) by (subst m1 m2; lia).
  pose proof (Z.div_mod m1 1048576 ltac:(lia)) as E1.
  pose proof (Z.div_mod m2 1048576 ltac:(lia)) as E2.
  pose proof (Z.mod_pos_bound m1 1048576 ltac:(lia)) as B1.
  pose proof (Z.mod_pos_bound m2 1048576 ltac:(lia)) as B2.
  set (q1 := (m1 / 1048576)%Z) in *. set (r1 := (m1 mod 1048576)%Z) in *.
  set (q2 := (m2 / 1048576)%Z) in *. set (r2 := (m2 mod 1048576)%Z) in *.
  assert (Hq : (q1 <= q2)%Z) by (apply Z.div_le_mono; lia).
  clearbody q1 r1 q2 r2 m1 m2.
  destruct (Z.compare_spec (2 * r1) 1048576);
    destruct (Z.compare_spec (2 * r2) 1048576);
    destruct (Z.even q1) eqn:Ev1; destruct (Z.even q2) eqn:Ev2; try lia.
  all: destruct (decide (q1 = q2)) as [Heq|Hne];
    [rewrite Heq in Ev1; congruence | lia].
Qed.

(** Rounding at one granularity [p]. *)
Lemma round_step_monotone (p n1 n2 : Z) :
  (0 < p)%Z -> (n1 <= n2)%Z ->
  (match (2 * (n1 mod p) ?= p)%Z with
   | Lt => n1 / p | Gt => n1 / p + 1
   | Eq => if Z.even (n1 / p) then n1 / p else n1 / p + 1
   end * p
   <= match (2 * (n2 mod p) ?= p)%Z with
      | Lt => n2 / p | Gt => n2 / p + 1
      | Eq => if Z.even (n2 / p) then n2 / p else n2 / p + 1
      end * p)%Z.
Proof.
  intros Hp Hle. apply Z.mul_le_mono_nonneg_r; [lia|].
  pose proof (Z.div_mod n1 p ltac:(lia)) as E1.
  pose proof (Z.div_mod n2 p ltac:(lia)) as E2.
  pose proof (Z.mod_pos_bound n1 p Hp) as B1.
  pose proof (Z.mod_pos_bound n2 p Hp) as B2.
  assert (Hq : (n1 / p <= n2 / p)%Z) by (apply Z.div_le_mono; lia).
  set (q1 := (n1 / p)%Z) in *. set (r1 := (n1 mod p)%Z) in *.
  set (q2 := (n2 / p)%Z) in *. set (r2 := (n2 mod p)%Z) in *.
  clearbody q1 r1 q2 r2.
  destruct (decide (q1 = q2)) as [Heq|Hne].
  - subst q2. assert (r1 <= r2)%Z by nia.
    destruct (Z.compare_spec (2 * r1) p); destruct (Z.compare_spec (2 * r2) p);
      destruct (Z.even q1); lia.
  - destruct (Z.compare_spec (2 * r1) p); destruct (Z.compare_spec (2 * r2) p);
      destruct (Z.even q1); destruct (Z.even q2); lia.
Qed.

(** A value that needs rounding stays between the powers of two around it. *)
Lemma round53_bounds (n : Z) :
  (0 < Z.log2 n - 52)%Z ->
  (2 ^ Z.log2 n <= round53 n <= 2 ^ (Z.log2 n + 1))%Z.
Proof.
  intros He. unfold round53. cbv zeta.
  assert (Hn : (0 < n)%Z).
  { destruct (Z.lt_ge_cases 0 n) as [?|Hneg]; [done|].
    rewrite (Z.log2_nonpos n) in He by done. lia. }
  destruct (Z.leb_spec (Z.log2 n - 52) 0) as [?|_]; [lia|].
  pose proof (Z.log2_spec n Hn) as [Hlo Hhi].
  set (e := (Z.log2 n - 52)%Z) in *.
  assert (Hl : Z.log2 n = (52 + e)%Z) by (subst e; lia).
  rewrite Hl in *. rewrite Z.pow_add_r in Hlo by lia.
  replace (Z.succ (52 + e)) with (53 + e)%Z in Hhi by lia.
  replace (52 + e + 1)%Z with (53 + e)%Z by lia.
  rewrite (Z.pow_add_r 2 53 e) in * by lia. rewrite (Z.pow_add_r 2 52 e) by lia.
  assert (Hp : (0 < 2 ^ e)%Z) by (apply Z.pow_pos_nonneg; lia).
  set (p := (2 ^ e)%Z) in *.
  pose proof (Z.div_mod n p ltac:(lia)) as E.
  pose proof (Z.mod_pos_bound n p Hp) as B.
  set (q := (n / p)%Z) in *. set (r := (n mod p)%Z) in *.
  clearbody q r p. clear e He Hl.
  change (2 ^ 52)%Z with 4503599627370496%Z in *.
  change (2 ^ 53)%Z with 9007199254740992%Z in *.
  assert (Hq : (4503599627370496 <= q <= 9007199254740991)%Z) by nia.
  destruct (Z.compare_spec (2 * r) p); destruct (Z.even q); nia.
Qed.

Lemma round53_monotone (n1 n2 : Z) :
  (0 <= n1 <= n2)%Z -> (round53 n1 <= round53 n2)%Z.
Proof.
  intros [H0 Hle].
  pose proof (Z.log2_le_mono n1 n2 Hle) as Hlog.
  destruct (Z.le_gt_cases (Z.log2 n2 - 52) 0) as [He2|He2].
  { unfold round53. cbv zeta.
    destruct (Z.leb_spec (Z.log2 n1 - 52) 0); [|lia].
    destruct (Z.leb_spec (Z.log2 n2 - 52) 0); [|lia]. done. }
  pose proof (round53_bounds n2 He2) as [Hlo2 _].
  destruct (decide (Z.log2 n1 = Z.log2 n2)) as [Heq|Hne].
  { unfold round53. cbv zeta. rewrite Heq.
    destruct (Z.leb_spec (Z.log2 n2 - 52) 0); [lia|].
    apply round_step_monotone; [|done]. apply Z.pow_pos_nonneg; lia. }
  assert (Hpow : (2 ^ (Z.log2 n1 + 1) <= 2 ^ Z.log2 n2)%Z).
  { apply Z.pow_le_mono_r; lia. }
  destruct (Z.le_gt_cases (Z.log2 n1 - 52) 0) as [He1|He1].
  - assert (round53 n1 = n1) as ->.
    { unfold round53. cbv zeta. by destruct (Z.leb_spec (Z.log2 n1 - 52) 0); [|lia]. }
    destruct (decide (n1 = 0%Z)) as [->|Hpos].
    + pose proof (Z.pow_nonneg 2 (Z.log2 n2) ltac:(lia)). lia.
    + pose proof (Z.log2_spec n1 ltac:(lia)) as [_ Hhi].
      replace (Z.succ (Z.log2 n1)) with (Z.log2 n1 + 1)%Z in Hhi by lia. lia.
  - pose proof (round53_bounds n1 He1) as [_ Hhi1]. lia.
Qed.

(** X13. The size shown for a file never decreases when the file grows: of
    two byte counts, the larger one is displayed with a value at least as
    large. *)
Theorem size_display_monotone (bytes1 bytes2 : N) :
  (bytes1 <= bytes2)%N ->
  (format_1f (mebibytes bytes1) <= format_1f (mebibytes bytes2))%Z.
Proof.
  intros Hle. unfold mebibytes.
  apply format_1f_monotone, round53_monotone. lia.
Qed.

End Sizes.

Section SizesSamples.
Import Py.

Lemma size_display_monotone_witness :
  (262144 <= 786432)%N /\
  (format_1f (mebibytes 262144) <= format_1f (mebibytes 786432))%Z.
Proof.
  split; [by vm_compute|].
  apply (size_display_monotone 262144 786432). by vm_compute.
Defined.

End SizesSamples.
